(** * PropertyPal: a retrieval-augmented real-estate chat assistant

    Shallow embedding of [app.py]: the [RealEstateChatbot] class
    ([test_api_key], [initialize_components], [classify_query_intent],
    [get_general_response], [get_property_response], [get_response]) and the
    Streamlit script [main], together with the properties its specification
    states about them.

    The hosted services and the libraries the script calls (OpenAI, LangChain,
    Chroma, Streamlit) are not part of the sources.  Calls whose outcome the
    script only forwards are oracles gathered in the record [Services]; the
    two library routines whose behaviour the specification describes, the text
    splitter and the similarity retriever, are modelled from its words in the
    modules [Chunker] and [Retriever]. *)

From Stdlib Require Import ZArith Lia Ascii.
From Equations Require Import Equations.
From stdpp Require Import base decidable option list sorting gmap strings.


(** ** Documents *)

(** A LangChain [Document] as [CSVLoader] produces it: the row's text and the
    metadata naming the file and the row it came from. *)
Record Document : Type := mkDocument {
  page_content : string;
  source : string;
  row : nat
}.

(** ** The text splitter *)

Module Chunker.

(** Python [str] values are sequences of characters; slicing is done on the
    character list. *)
Definition chars (s : string) : list ascii := String.list_ascii_of_string s.
Definition text (l : list ascii) : string := String.string_of_list_ascii l.

(** Modelled from the spec: the splitter itself,
    [RecursiveCharacterTextSplitter.split_documents], is library code that
    is absent from the sources; [initialize_components] only fixes its
    configuration.  Section 4.3 gives the policy: greedy forward split, take
    up to the maximum length, then slide forward by (maximum length -
    overlap).  The walk ends with the window that reaches the end of the
    text.  A configuration whose overlap is not smaller than the maximum
    length cannot slide; the walk then stops after the first window. *)
Equations? windows (maxLen overlap : nat) (s : list ascii) : list (list ascii)
  by wf (length s) lt :=
windows maxLen overlap s with decide (length s <= maxLen) := {
  | left _ => [s]
  | right _ with decide (overlap < maxLen) := {
      | left _ => take maxLen s :: windows maxLen overlap (drop (maxLen - overlap) s)
      | right _ => [take maxLen s] } }.
Proof. rewrite length_drop. lia. Qed.

Definition split_text (maxLen overlap : nat) (s : string) : list string :=
  text <$> windows maxLen overlap (chars s).

(** Every chunk keeps the reference to the record it was cut from. *)
Definition split_document (maxLen overlap : nat) (d : Document) : list Document :=
  (fun c => mkDocument c (source d) (row d)) <$> split_text maxLen overlap (page_content d).

Definition split_documents (maxLen overlap : nat) (ds : list Document) : list Document :=
  ds ≫= split_document maxLen overlap.

(** Ceiling of a quotient of integers, for a positive divisor. *)
Definition ceil_div (a b : Z) : Z := ((a + b - 1) / b)%Z.

End Chunker.

(** ** Python values the script handles *)

Module PyStr.

(** A Python [str] is held as its UTF-8 bytes.  [byte c n]: the byte [c] has
    the value [n]; [between lo c hi]: its value lies in the range. *)
Definition byte (c : ascii) (n : nat) : bool := Nat.eqb (nat_of_ascii c) n.
Definition between (lo : nat) (c : ascii) (hi : nat) : bool :=
  Nat.leb lo (nat_of_ascii c) && Nat.leb (nat_of_ascii c) hi.

(** The white-space characters of [str.strip] and [str.isspace], by the
    length of their encoding.  One byte: tab to carriage return, the four
    separators 28 to 31, and the space. *)
Definition space1 (c : ascii) : bool :=
  let n := nat_of_ascii c in
  (Nat.leb 9 n && Nat.leb n 13) || (Nat.leb 28 n && Nat.leb n 32).

(** Two bytes: U+0085 (next line) and U+00A0 (no-break space). *)
Definition space2 (a b : ascii) : bool :=
  byte a 194 && (byte b 133 || byte b 160).

(** Three bytes: U+1680, U+2000 to U+200A, U+2028, U+2029, U+202F, U+205F
    and U+3000. *)
Definition space3 (a b c : ascii) : bool :=
  (byte a 225 && byte b 154 && byte c 128) ||
  (byte a 226 && byte b 128 &&
     (between 128 c 138 || byte c 168 || byte c 169 || byte c 175)) ||
  (byte a 226 && byte b 129 && byte c 159) ||
  (byte a 227 && byte b 128 && byte c 128).

(** Removal of the white-space characters a string starts with; [sp2] and
    [sp3] recognize the characters of two and three bytes. *)
Fixpoint lstrip_with (sp2 : ascii -> ascii -> bool)
    (sp3 : ascii -> ascii -> ascii -> bool) (s : string) : string :=
  match s with
  | EmptyString => s
  | String a s1 =>
      if space1 a then lstrip_with sp2 sp3 s1 else
      match s1 with
      | EmptyString => s
      | String b s2 =>
          if sp2 a b then lstrip_with sp2 sp3 s2 else
          match s2 with
          | EmptyString => s
          | String c s3 => if sp3 a b c then lstrip_with sp2 sp3 s3 else s
          end
      end
  end.

(** [s.lstrip()] *)
Definition lstrip (s : string) : string := lstrip_with space2 space3 s.

(** [s.rstrip()]: the same walk from the end, where the bytes of a character
    come last byte first. *)
Definition rstrip (s : string) : string :=
  String.rev
    (lstrip_with (fun b a => space2 a b) (fun c b a => space3 a b c) (String.rev s)).

(** [s.strip()] *)
Definition strip (s : string) : string := rstrip (lstrip s).

(** The characters that [str.upper] changes, each with what it becomes
    (Unicode 14.0, as in CPython 3.11; one character can become two or
    three).  Every other character is left as it is. *)
Definition upper_table : list (string * string) :=
  [("a", "A"); ("b", "B"); ("c", "C"); ("d", "D"); ("e", "E"); ("f", "F");
   ("g", "G"); ("h", "H"); ("i", "I"); ("j", "J"); ("k", "K"); ("l", "L");
   ("m", "M"); ("n", "N"); ("o", "O"); ("p", "P"); ("q", "Q"); ("r", "R");
   ("s", "S"); ("t", "T"); ("u", "U"); ("v", "V"); ("w", "W"); ("x", "X");
   ("y", "Y"); ("z", "Z"); ("µ", "Μ"); ("ß", "SS"); ("à", "À");
   ("á", "Á"); ("â", "Â"); ("ã", "Ã"); ("ä", "Ä"); ("å", "Å");
   ("æ", "Æ"); ("ç", "Ç"); ("è", "È"); ("é", "É"); ("ê", "Ê");
   ("ë", "Ë"); ("ì", "Ì"); ("í", "Í"); ("î", "Î"); ("ï", "Ï");
   ("ð", "Ð"); ("ñ", "Ñ"); ("ò", "Ò"); ("ó", "Ó"); ("ô", "Ô");
   ("õ", "Õ"); ("ö", "Ö"); ("ø", "Ø"); ("ù", "Ù"); ("ú", "Ú");
   ("û", "Û"); ("ü", "Ü"); ("ý", "Ý"); ("þ", "Þ"); ("ÿ", "Ÿ");
   ("ā", "Ā"); ("ă", "Ă"); ("ą", "Ą"); ("ć", "Ć"); ("ĉ", "Ĉ");
   ("ċ", "Ċ"); ("č", "Č"); ("ď", "Ď"); ("đ", "Đ"); ("ē", "Ē");
   ("ĕ", "Ĕ"); ("ė", "Ė"); ("ę", "Ę"); ("ě", "Ě"); ("ĝ", "Ĝ");
   ("ğ", "Ğ"); ("ġ", "Ġ"); ("ģ", "Ģ"); ("ĥ", "Ĥ"); ("ħ", "Ħ");
   ("ĩ", "Ĩ"); ("ī", "Ī"); ("ĭ", "Ĭ"); ("į", "Į"); ("ı", "I");
   ("ĳ", "Ĳ"); ("ĵ", "Ĵ"); ("ķ", "Ķ"); ("ĺ", "Ĺ"); ("ļ", "Ļ");
   ("ľ", "Ľ"); ("ŀ", "Ŀ"); ("ł", "Ł"); ("ń", "Ń"); ("ņ", "Ņ");
   ("ň", "Ň"); ("ŉ", "ʼN"); ("ŋ", "Ŋ"); ("ō", "Ō"); ("ŏ", "Ŏ");
   ("ő", "Ő"); ("œ", "Œ"); ("ŕ", "Ŕ"); ("ŗ", "Ŗ"); ("ř", "Ř");
   ("ś", "Ś"); ("ŝ", "Ŝ"); ("ş", "Ş"); ("š", "Š"); ("ţ", "Ţ");
   ("ť", "Ť"); ("ŧ", "Ŧ"); ("ũ", "Ũ"); ("ū", "Ū"); ("ŭ", "Ŭ");
   ("ů", "Ů"); ("ű", "Ű"); ("ų", "Ų"); ("ŵ", "Ŵ"); ("ŷ", "Ŷ");
   ("ź", "Ź"); ("ż", "Ż"); ("ž", "Ž"); ("ſ", "S"); ("ƀ", "Ƀ");
   ("ƃ", "Ƃ"); ("ƅ", "Ƅ"); ("ƈ", "Ƈ"); ("ƌ", "Ƌ"); ("ƒ", "Ƒ");
   ("ƕ", "Ƕ"); ("ƙ", "Ƙ"); ("ƚ", "Ƚ"); ("ƞ", "Ƞ"); ("ơ", "Ơ");
   ("ƣ", "Ƣ"); ("ƥ", "Ƥ"); ("ƨ", "Ƨ"); ("ƭ", "Ƭ"); ("ư", "Ư");
   ("ƴ", "Ƴ"); ("ƶ", "Ƶ"); ("ƹ", "Ƹ"); ("ƽ", "Ƽ"); ("ƿ", "Ƿ");
   ("ǅ", "Ǆ"); ("ǆ", "Ǆ"); ("ǈ", "Ǉ"); ("ǉ", "Ǉ"); ("ǋ", "Ǌ");
   ("ǌ", "Ǌ"); ("ǎ", "Ǎ"); ("ǐ", "Ǐ"); ("ǒ", "Ǒ"); ("ǔ", "Ǔ");
   ("ǖ", "Ǖ"); ("ǘ", "Ǘ"); ("ǚ", "Ǚ"); ("ǜ", "Ǜ"); ("ǝ", "Ǝ");
   ("ǟ", "Ǟ"); ("ǡ", "Ǡ"); ("ǣ", "Ǣ"); ("ǥ", "Ǥ"); ("ǧ", "Ǧ");
   ("ǩ", "Ǩ"); ("ǫ", "Ǫ"); ("ǭ", "Ǭ"); ("ǯ", "Ǯ"); ("ǰ", "J̌");
   ("ǲ", "Ǳ"); ("ǳ", "Ǳ"); ("ǵ", "Ǵ"); ("ǹ", "Ǹ"); ("ǻ", "Ǻ");
   ("ǽ", "Ǽ"); ("ǿ", "Ǿ"); ("ȁ", "Ȁ"); ("ȃ", "Ȃ"); ("ȅ", "Ȅ");
   ("ȇ", "Ȇ"); ("ȉ", "Ȉ"); ("ȋ", "Ȋ"); ("ȍ", "Ȍ"); ("ȏ", "Ȏ");
   ("ȑ", "Ȑ"); ("ȓ", "Ȓ"); ("ȕ", "Ȕ"); ("ȗ", "Ȗ"); ("ș", "Ș");
   ("ț", "Ț"); ("ȝ", "Ȝ"); ("ȟ", "Ȟ"); ("ȣ", "Ȣ"); ("ȥ", "Ȥ");
   ("ȧ", "Ȧ"); ("ȩ", "Ȩ"); ("ȫ", "Ȫ"); ("ȭ", "Ȭ"); ("ȯ", "Ȯ");
   ("ȱ", "Ȱ"); ("ȳ", "Ȳ"); ("ȼ", "Ȼ"); ("ȿ", "Ȿ"); ("ɀ", "Ɀ");
   ("ɂ", "Ɂ"); ("ɇ", "Ɇ"); ("ɉ", "Ɉ"); ("ɋ", "Ɋ"); ("ɍ", "Ɍ");
   ("ɏ", "Ɏ"); ("ɐ", "Ɐ"); ("ɑ", "Ɑ"); ("ɒ", "Ɒ"); ("ɓ", "Ɓ");
   ("ɔ", "Ɔ"); ("ɖ", "Ɖ"); ("ɗ", "Ɗ"); ("ə", "Ə"); ("ɛ", "Ɛ");
   ("ɜ", "Ɜ"); ("ɠ", "Ɠ"); ("ɡ", "Ɡ"); ("ɣ", "Ɣ"); ("ɥ", "Ɥ");
   ("ɦ", "Ɦ"); ("ɨ", "Ɨ"); ("ɩ", "Ɩ"); ("ɪ", "Ɪ"); ("ɫ", "Ɫ");
   ("ɬ", "Ɬ"); ("ɯ", "Ɯ"); ("ɱ", "Ɱ"); ("ɲ", "Ɲ"); ("ɵ", "Ɵ");
   ("ɽ", "Ɽ"); ("ʀ", "Ʀ"); ("ʂ", "Ʂ"); ("ʃ", "Ʃ"); ("ʇ", "Ʇ");
   ("ʈ", "Ʈ"); ("ʉ", "Ʉ"); ("ʊ", "Ʊ"); ("ʋ", "Ʋ"); ("ʌ", "Ʌ");
   ("ʒ", "Ʒ"); ("ʝ", "Ʝ"); ("ʞ", "Ʞ"); ("ͅ", "Ι"); ("ͱ", "Ͱ");
   ("ͳ", "Ͳ"); ("ͷ", "Ͷ"); ("ͻ", "Ͻ"); ("ͼ", "Ͼ"); ("ͽ", "Ͽ");
   ("ΐ", "Ϊ́"); ("ά", "Ά"); ("έ", "Έ"); ("ή", "Ή"); ("ί", "Ί");
   ("ΰ", "Ϋ́"); ("α", "Α"); ("β", "Β"); ("γ", "Γ"); ("δ", "Δ");
   ("ε", "Ε"); ("ζ", "Ζ"); ("η", "Η"); ("θ", "Θ"); ("ι", "Ι");
   ("κ", "Κ"); ("λ", "Λ"); ("μ", "Μ"); ("ν", "Ν"); ("ξ", "Ξ");
   ("ο", "Ο"); ("π", "Π"); ("ρ", "Ρ"); ("ς", "Σ"); ("σ", "Σ");
   ("τ", "Τ"); ("υ", "Υ"); ("φ", "Φ"); ("χ", "Χ"); ("ψ", "Ψ");
   ("ω", "Ω"); ("ϊ", "Ϊ"); ("ϋ", "Ϋ"); ("ό", "Ό"); ("ύ", "Ύ");
   ("ώ", "Ώ"); ("ϐ", "Β"); ("ϑ", "Θ"); ("ϕ", "Φ"); ("ϖ", "Π");
   ("ϗ", "Ϗ"); ("ϙ", "Ϙ"); ("ϛ", "Ϛ"); ("ϝ", "Ϝ"); ("ϟ", "Ϟ");
   ("ϡ", "Ϡ"); ("ϣ", "Ϣ"); ("ϥ", "Ϥ"); ("ϧ", "Ϧ"); ("ϩ", "Ϩ");
   ("ϫ", "Ϫ"); ("ϭ", "Ϭ"); ("ϯ", "Ϯ"); ("ϰ", "Κ"); ("ϱ", "Ρ");
   ("ϲ", "Ϲ"); ("ϳ", "Ϳ"); ("ϵ", "Ε"); ("ϸ", "Ϸ"); ("ϻ", "Ϻ");
   ("а", "А"); ("б", "Б"); ("в", "В"); ("г", "Г"); ("д", "Д");
   ("е", "Е"); ("ж", "Ж"); ("з", "З"); ("и", "И"); ("й", "Й");
   ("к", "К"); ("л", "Л"); ("м", "М"); ("н", "Н"); ("о", "О");
   ("п", "П"); ("р", "Р"); ("с", "С"); ("т", "Т"); ("у", "У");
   ("ф", "Ф"); ("х", "Х"); ("ц", "Ц"); ("ч", "Ч"); ("ш", "Ш");
   ("щ", "Щ"); ("ъ", "Ъ"); ("ы", "Ы"); ("ь", "Ь"); ("э", "Э");
   ("ю", "Ю"); ("я", "Я"); ("ѐ", "Ѐ"); ("ё", "Ё"); ("ђ", "Ђ");
   ("ѓ", "Ѓ"); ("є", "Є"); ("ѕ", "Ѕ"); ("і", "І"); ("ї", "Ї");
   ("ј", "Ј"); ("љ", "Љ"); ("њ", "Њ"); ("ћ", "Ћ"); ("ќ", "Ќ");
   ("ѝ", "Ѝ"); ("ў", "Ў"); ("џ", "Џ"); ("ѡ", "Ѡ"); ("ѣ", "Ѣ");
   ("ѥ", "Ѥ"); ("ѧ", "Ѧ"); ("ѩ", "Ѩ"); ("ѫ", "Ѫ"); ("ѭ", "Ѭ");
   ("ѯ", "Ѯ"); ("ѱ", "Ѱ"); ("ѳ", "Ѳ"); ("ѵ", "Ѵ"); ("ѷ", "Ѷ");
   ("ѹ", "Ѹ"); ("ѻ", "Ѻ"); ("ѽ", "Ѽ"); ("ѿ", "Ѿ"); ("ҁ", "Ҁ");
   ("ҋ", "Ҋ"); ("ҍ", "Ҍ"); ("ҏ", "Ҏ"); ("ґ", "Ґ"); ("ғ", "Ғ");
   ("ҕ", "Ҕ"); ("җ", "Җ"); ("ҙ", "Ҙ"); ("қ", "Қ"); ("ҝ", "Ҝ");
   ("ҟ", "Ҟ"); ("ҡ", "Ҡ"); ("ң", "Ң"); ("ҥ", "Ҥ"); ("ҧ", "Ҧ");
   ("ҩ", "Ҩ"); ("ҫ", "Ҫ"); ("ҭ", "Ҭ"); ("ү", "Ү"); ("ұ", "Ұ");
   ("ҳ", "Ҳ"); ("ҵ", "Ҵ"); ("ҷ", "Ҷ"); ("ҹ", "Ҹ"); ("һ", "Һ");
   ("ҽ", "Ҽ"); ("ҿ", "Ҿ"); ("ӂ", "Ӂ"); ("ӄ", "Ӄ"); ("ӆ", "Ӆ");
   ("ӈ", "Ӈ"); ("ӊ", "Ӊ"); ("ӌ", "Ӌ"); ("ӎ", "Ӎ"); ("ӏ", "Ӏ");
   ("ӑ", "Ӑ"); ("ӓ", "Ӓ"); ("ӕ", "Ӕ"); ("ӗ", "Ӗ"); ("ә", "Ә");
   ("ӛ", "Ӛ"); ("ӝ", "Ӝ"); ("ӟ", "Ӟ"); ("ӡ", "Ӡ"); ("ӣ", "Ӣ");
   ("ӥ", "Ӥ"); ("ӧ", "Ӧ"); ("ө", "Ө"); ("ӫ", "Ӫ"); ("ӭ", "Ӭ");
   ("ӯ", "Ӯ"); ("ӱ", "Ӱ"); ("ӳ", "Ӳ"); ("ӵ", "Ӵ"); ("ӷ", "Ӷ");
   ("ӹ", "Ӹ"); ("ӻ", "Ӻ"); ("ӽ", "Ӽ"); ("ӿ", "Ӿ"); ("ԁ", "Ԁ");
   ("ԃ", "Ԃ"); ("ԅ", "Ԅ"); ("ԇ", "Ԇ"); ("ԉ", "Ԉ"); ("ԋ", "Ԋ");
   ("ԍ", "Ԍ"); ("ԏ", "Ԏ"); ("ԑ", "Ԑ"); ("ԓ", "Ԓ"); ("ԕ", "Ԕ");
   ("ԗ", "Ԗ"); ("ԙ", "Ԙ"); ("ԛ", "Ԛ"); ("ԝ", "Ԝ"); ("ԟ", "Ԟ");
   ("ԡ", "Ԡ"); ("ԣ", "Ԣ"); ("ԥ", "Ԥ"); ("ԧ", "Ԧ"); ("ԩ", "Ԩ");
   ("ԫ", "Ԫ"); ("ԭ", "Ԭ"); ("ԯ", "Ԯ"); ("ա", "Ա"); ("բ", "Բ");
   ("գ", "Գ"); ("դ", "Դ"); ("ե", "Ե"); ("զ", "Զ"); ("է", "Է");
   ("ը", "Ը"); ("թ", "Թ"); ("ժ", "Ժ"); ("ի", "Ի"); ("լ", "Լ");
   ("խ", "Խ"); ("ծ", "Ծ"); ("կ", "Կ"); ("հ", "Հ"); ("ձ", "Ձ");
   ("ղ", "Ղ"); ("ճ", "Ճ"); ("մ", "Մ"); ("յ", "Յ"); ("ն", "Ն");
   ("շ", "Շ"); ("ո", "Ո"); ("չ", "Չ"); ("պ", "Պ"); ("ջ", "Ջ");
   ("ռ", "Ռ"); ("ս", "Ս"); ("վ", "Վ"); ("տ", "Տ"); ("ր", "Ր");
   ("ց", "Ց"); ("ւ", "Ւ"); ("փ", "Փ"); ("ք", "Ք"); ("օ", "Օ");
   ("ֆ", "Ֆ"); ("և", "ԵՒ"); ("ა", "Ა"); ("ბ", "Ბ");
   ("გ", "Გ"); ("დ", "Დ"); ("ე", "Ე"); ("ვ", "Ვ");
   ("ზ", "Ზ"); ("თ", "Თ"); ("ი", "Ი"); ("კ", "Კ");
   ("ლ", "Ლ"); ("მ", "Მ"); ("ნ", "Ნ"); ("ო", "Ო");
   ("პ", "Პ"); ("ჟ", "Ჟ"); ("რ", "Რ"); ("ს", "Ს");
   ("ტ", "Ტ"); ("უ", "Უ"); ("ფ", "Ფ"); ("ქ", "Ქ");
   ("ღ", "Ღ"); ("ყ", "Ყ"); ("შ", "Შ"); ("ჩ", "Ჩ");
   ("ც", "Ც"); ("ძ", "Ძ"); ("წ", "Წ"); ("ჭ", "Ჭ");
   ("ხ", "Ხ"); ("ჯ", "Ჯ"); ("ჰ", "Ჰ"); ("ჱ", "Ჱ");
   ("ჲ", "Ჲ"); ("ჳ", "Ჳ"); ("ჴ", "Ჴ"); ("ჵ", "Ჵ");
   ("ჶ", "Ჶ"); ("ჷ", "Ჷ"); ("ჸ", "Ჸ"); ("ჹ", "Ჹ");
   ("ჺ", "Ჺ"); ("ჽ", "Ჽ"); ("ჾ", "Ჾ"); ("ჿ", "Ჿ");
   ("ᏸ", "Ᏸ"); ("ᏹ", "Ᏹ"); ("ᏺ", "Ᏺ"); ("ᏻ", "Ᏻ");
   ("ᏼ", "Ᏼ"); ("ᏽ", "Ᏽ"); ("ᲀ", "В"); ("ᲁ", "Д"); ("ᲂ", "О");
   ("ᲃ", "С"); ("ᲄ", "Т"); ("ᲅ", "Т"); ("ᲆ", "Ъ"); ("ᲇ", "Ѣ");
   ("ᲈ", "Ꙋ"); ("ᵹ", "Ᵹ"); ("ᵽ", "Ᵽ"); ("ᶎ", "Ᶎ");
   ("ḁ", "Ḁ"); ("ḃ", "Ḃ"); ("ḅ", "Ḅ"); ("ḇ", "Ḇ");
   ("ḉ", "Ḉ"); ("ḋ", "Ḋ"); ("ḍ", "Ḍ"); ("ḏ", "Ḏ");
   ("ḑ", "Ḑ"); ("ḓ", "Ḓ"); ("ḕ", "Ḕ"); ("ḗ", "Ḗ");
   ("ḙ", "Ḙ"); ("ḛ", "Ḛ"); ("ḝ", "Ḝ"); ("ḟ", "Ḟ");
   ("ḡ", "Ḡ"); ("ḣ", "Ḣ"); ("ḥ", "Ḥ"); ("ḧ", "Ḧ");
   ("ḩ", "Ḩ"); ("ḫ", "Ḫ"); ("ḭ", "Ḭ"); ("ḯ", "Ḯ");
   ("ḱ", "Ḱ"); ("ḳ", "Ḳ"); ("ḵ", "Ḵ"); ("ḷ", "Ḷ");
   ("ḹ", "Ḹ"); ("ḻ", "Ḻ"); ("ḽ", "Ḽ"); ("ḿ", "Ḿ");
   ("ṁ", "Ṁ"); ("ṃ", "Ṃ"); ("ṅ", "Ṅ"); ("ṇ", "Ṇ");
   ("ṉ", "Ṉ"); ("ṋ", "Ṋ"); ("ṍ", "Ṍ"); ("ṏ", "Ṏ");
   ("ṑ", "Ṑ"); ("ṓ", "Ṓ"); ("ṕ", "Ṕ"); ("ṗ", "Ṗ");
   ("ṙ", "Ṙ"); ("ṛ", "Ṛ"); ("ṝ", "Ṝ"); ("ṟ", "Ṟ");
   ("ṡ", "Ṡ"); ("ṣ", "Ṣ"); ("ṥ", "Ṥ"); ("ṧ", "Ṧ");
   ("ṩ", "Ṩ"); ("ṫ", "Ṫ"); ("ṭ", "Ṭ"); ("ṯ", "Ṯ");
   ("ṱ", "Ṱ"); ("ṳ", "Ṳ"); ("ṵ", "Ṵ"); ("ṷ", "Ṷ");
   ("ṹ", "Ṹ"); ("ṻ", "Ṻ"); ("ṽ", "Ṽ"); ("ṿ", "Ṿ");
   ("ẁ", "Ẁ"); ("ẃ", "Ẃ"); ("ẅ", "Ẅ"); ("ẇ", "Ẇ");
   ("ẉ", "Ẉ"); ("ẋ", "Ẋ"); ("ẍ", "Ẍ"); ("ẏ", "Ẏ");
   ("ẑ", "Ẑ"); ("ẓ", "Ẓ"); ("ẕ", "Ẕ"); ("ẖ", "H̱");
   ("ẗ", "T̈"); ("ẘ", "W̊"); ("ẙ", "Y̊"); ("ẚ", "Aʾ");
   ("ẛ", "Ṡ"); ("ạ", "Ạ"); ("ả", "Ả"); ("ấ", "Ấ");
   ("ầ", "Ầ"); ("ẩ", "Ẩ"); ("ẫ", "Ẫ"); ("ậ", "Ậ");
   ("ắ", "Ắ"); ("ằ", "Ằ"); ("ẳ", "Ẳ"); ("ẵ", "Ẵ");
   ("ặ", "Ặ"); ("ẹ", "Ẹ"); ("ẻ", "Ẻ"); ("ẽ", "Ẽ");
   ("ế", "Ế"); ("ề", "Ề"); ("ể", "Ể"); ("ễ", "Ễ");
   ("ệ", "Ệ"); ("ỉ", "Ỉ"); ("ị", "Ị"); ("ọ", "Ọ");
   ("ỏ", "Ỏ"); ("ố", "Ố"); ("ồ", "Ồ"); ("ổ", "Ổ");
   ("ỗ", "Ỗ"); ("ộ", "Ộ"); ("ớ", "Ớ"); ("ờ", "Ờ");
   ("ở", "Ở"); ("ỡ", "Ỡ"); ("ợ", "Ợ"); ("ụ", "Ụ");
   ("ủ", "Ủ"); ("ứ", "Ứ"); ("ừ", "Ừ"); ("ử", "Ử");
   ("ữ", "Ữ"); ("ự", "Ự"); ("ỳ", "Ỳ"); ("ỵ", "Ỵ");
   ("ỷ", "Ỷ"); ("ỹ", "Ỹ"); ("ỻ", "Ỻ"); ("ỽ", "Ỽ");
   ("ỿ", "Ỿ"); ("ἀ", "Ἀ"); ("ἁ", "Ἁ"); ("ἂ", "Ἂ");
   ("ἃ", "Ἃ"); ("ἄ", "Ἄ"); ("ἅ", "Ἅ"); ("ἆ", "Ἆ");
   ("ἇ", "Ἇ"); ("ἐ", "Ἐ"); ("ἑ", "Ἑ"); ("ἒ", "Ἒ");
   ("ἓ", "Ἓ"); ("ἔ", "Ἔ"); ("ἕ", "Ἕ"); ("ἠ", "Ἠ");
   ("ἡ", "Ἡ"); ("ἢ", "Ἢ"); ("ἣ", "Ἣ"); ("ἤ", "Ἤ");
   ("ἥ", "Ἥ"); ("ἦ", "Ἦ"); ("ἧ", "Ἧ"); ("ἰ", "Ἰ");
   ("ἱ", "Ἱ"); ("ἲ", "Ἲ"); ("ἳ", "Ἳ"); ("ἴ", "Ἴ");
   ("ἵ", "Ἵ"); ("ἶ", "Ἶ"); ("ἷ", "Ἷ"); ("ὀ", "Ὀ");
   ("ὁ", "Ὁ"); ("ὂ", "Ὂ"); ("ὃ", "Ὃ"); ("ὄ", "Ὄ");
   ("ὅ", "Ὅ"); ("ὐ", "Υ̓"); ("ὑ", "Ὑ"); ("ὒ", "Υ̓̀");
   ("ὓ", "Ὓ"); ("ὔ", "Υ̓́"); ("ὕ", "Ὕ"); ("ὖ", "Υ̓͂");
   ("ὗ", "Ὗ"); ("ὠ", "Ὠ"); ("ὡ", "Ὡ"); ("ὢ", "Ὢ");
   ("ὣ", "Ὣ"); ("ὤ", "Ὤ"); ("ὥ", "Ὥ"); ("ὦ", "Ὦ");
   ("ὧ", "Ὧ"); ("ὰ", "Ὰ"); ("ά", "Ά"); ("ὲ", "Ὲ");
   ("έ", "Έ"); ("ὴ", "Ὴ"); ("ή", "Ή"); ("ὶ", "Ὶ");
   ("ί", "Ί"); ("ὸ", "Ὸ"); ("ό", "Ό"); ("ὺ", "Ὺ");
   ("ύ", "Ύ"); ("ὼ", "Ὼ"); ("ώ", "Ώ"); ("ᾀ", "ἈΙ");
   ("ᾁ", "ἉΙ"); ("ᾂ", "ἊΙ"); ("ᾃ", "ἋΙ"); ("ᾄ", "ἌΙ");
   ("ᾅ", "ἍΙ"); ("ᾆ", "ἎΙ"); ("ᾇ", "ἏΙ"); ("ᾈ", "ἈΙ");
   ("ᾉ", "ἉΙ"); ("ᾊ", "ἊΙ"); ("ᾋ", "ἋΙ"); ("ᾌ", "ἌΙ");
   ("ᾍ", "ἍΙ"); ("ᾎ", "ἎΙ"); ("ᾏ", "ἏΙ"); ("ᾐ", "ἨΙ");
   ("ᾑ", "ἩΙ"); ("ᾒ", "ἪΙ"); ("ᾓ", "ἫΙ"); ("ᾔ", "ἬΙ");
   ("ᾕ", "ἭΙ"); ("ᾖ", "ἮΙ"); ("ᾗ", "ἯΙ"); ("ᾘ", "ἨΙ");
   ("ᾙ", "ἩΙ"); ("ᾚ", "ἪΙ"); ("ᾛ", "ἫΙ"); ("ᾜ", "ἬΙ");
   ("ᾝ", "ἭΙ"); ("ᾞ", "ἮΙ"); ("ᾟ", "ἯΙ"); ("ᾠ", "ὨΙ");
   ("ᾡ", "ὩΙ"); ("ᾢ", "ὪΙ"); ("ᾣ", "ὫΙ"); ("ᾤ", "ὬΙ");
   ("ᾥ", "ὭΙ"); ("ᾦ", "ὮΙ"); ("ᾧ", "ὯΙ"); ("ᾨ", "ὨΙ");
   ("ᾩ", "ὩΙ"); ("ᾪ", "ὪΙ"); ("ᾫ", "ὫΙ"); ("ᾬ", "ὬΙ");
   ("ᾭ", "ὭΙ"); ("ᾮ", "ὮΙ"); ("ᾯ", "ὯΙ"); ("ᾰ", "Ᾰ");
   ("ᾱ", "Ᾱ"); ("ᾲ", "ᾺΙ"); ("ᾳ", "ΑΙ"); ("ᾴ", "ΆΙ");
   ("ᾶ", "Α͂"); ("ᾷ", "Α͂Ι"); ("ᾼ", "ΑΙ"); ("ι", "Ι");
   ("ῂ", "ῊΙ"); ("ῃ", "ΗΙ"); ("ῄ", "ΉΙ"); ("ῆ", "Η͂");
   ("ῇ", "Η͂Ι"); ("ῌ", "ΗΙ"); ("ῐ", "Ῐ"); ("ῑ", "Ῑ");
   ("ῒ", "Ϊ̀"); ("ΐ", "Ϊ́"); ("ῖ", "Ι͂"); ("ῗ", "Ϊ͂");
   ("ῠ", "Ῠ"); ("ῡ", "Ῡ"); ("ῢ", "Ϋ̀"); ("ΰ", "Ϋ́");
   ("ῤ", "Ρ̓"); ("ῥ", "Ῥ"); ("ῦ", "Υ͂"); ("ῧ", "Ϋ͂");
   ("ῲ", "ῺΙ"); ("ῳ", "ΩΙ"); ("ῴ", "ΏΙ"); ("ῶ", "Ω͂");
   ("ῷ", "Ω͂Ι"); ("ῼ", "ΩΙ"); ("ⅎ", "Ⅎ"); ("ⅰ", "Ⅰ");
   ("ⅱ", "Ⅱ"); ("ⅲ", "Ⅲ"); ("ⅳ", "Ⅳ"); ("ⅴ", "Ⅴ");
   ("ⅵ", "Ⅵ"); ("ⅶ", "Ⅶ"); ("ⅷ", "Ⅷ"); ("ⅸ", "Ⅸ");
   ("ⅹ", "Ⅹ"); ("ⅺ", "Ⅺ"); ("ⅻ", "Ⅻ"); ("ⅼ", "Ⅼ");
   ("ⅽ", "Ⅽ"); ("ⅾ", "Ⅾ"); ("ⅿ", "Ⅿ"); ("ↄ", "Ↄ");
   ("ⓐ", "Ⓐ"); ("ⓑ", "Ⓑ"); ("ⓒ", "Ⓒ"); ("ⓓ", "Ⓓ");
   ("ⓔ", "Ⓔ"); ("ⓕ", "Ⓕ"); ("ⓖ", "Ⓖ"); ("ⓗ", "Ⓗ");
   ("ⓘ", "Ⓘ"); ("ⓙ", "Ⓙ"); ("ⓚ", "Ⓚ"); ("ⓛ", "Ⓛ");
   ("ⓜ", "Ⓜ"); ("ⓝ", "Ⓝ"); ("ⓞ", "Ⓞ"); ("ⓟ", "Ⓟ");
   ("ⓠ", "Ⓠ"); ("ⓡ", "Ⓡ"); ("ⓢ", "Ⓢ"); ("ⓣ", "Ⓣ");
   ("ⓤ", "Ⓤ"); ("ⓥ", "Ⓥ"); ("ⓦ", "Ⓦ"); ("ⓧ", "Ⓧ");
   ("ⓨ", "Ⓨ"); ("ⓩ", "Ⓩ"); ("ⰰ", "Ⰰ"); ("ⰱ", "Ⰱ");
   ("ⰲ", "Ⰲ"); ("ⰳ", "Ⰳ"); ("ⰴ", "Ⰴ"); ("ⰵ", "Ⰵ");
   ("ⰶ", "Ⰶ"); ("ⰷ", "Ⰷ"); ("ⰸ", "Ⰸ"); ("ⰹ", "Ⰹ");
   ("ⰺ", "Ⰺ"); ("ⰻ", "Ⰻ"); ("ⰼ", "Ⰼ"); ("ⰽ", "Ⰽ");
   ("ⰾ", "Ⰾ"); ("ⰿ", "Ⰿ"); ("ⱀ", "Ⱀ"); ("ⱁ", "Ⱁ");
   ("ⱂ", "Ⱂ"); ("ⱃ", "Ⱃ"); ("ⱄ", "Ⱄ"); ("ⱅ", "Ⱅ");
   ("ⱆ", "Ⱆ"); ("ⱇ", "Ⱇ"); ("ⱈ", "Ⱈ"); ("ⱉ", "Ⱉ");
   ("ⱊ", "Ⱊ"); ("ⱋ", "Ⱋ"); ("ⱌ", "Ⱌ"); ("ⱍ", "Ⱍ");
   ("ⱎ", "Ⱎ"); ("ⱏ", "Ⱏ"); ("ⱐ", "Ⱐ"); ("ⱑ", "Ⱑ");
   ("ⱒ", "Ⱒ"); ("ⱓ", "Ⱓ"); ("ⱔ", "Ⱔ"); ("ⱕ", "Ⱕ");
   ("ⱖ", "Ⱖ"); ("ⱗ", "Ⱗ"); ("ⱘ", "Ⱘ"); ("ⱙ", "Ⱙ");
   ("ⱚ", "Ⱚ"); ("ⱛ", "Ⱛ"); ("ⱜ", "Ⱜ"); ("ⱝ", "Ⱝ");
   ("ⱞ", "Ⱞ"); ("ⱟ", "Ⱟ"); ("ⱡ", "Ⱡ"); ("ⱥ", "Ⱥ");
   ("ⱦ", "Ⱦ"); ("ⱨ", "Ⱨ"); ("ⱪ", "Ⱪ"); ("ⱬ", "Ⱬ");
   ("ⱳ", "Ⱳ"); ("ⱶ", "Ⱶ"); ("ⲁ", "Ⲁ"); ("ⲃ", "Ⲃ");
   ("ⲅ", "Ⲅ"); ("ⲇ", "Ⲇ"); ("ⲉ", "Ⲉ"); ("ⲋ", "Ⲋ");
   ("ⲍ", "Ⲍ"); ("ⲏ", "Ⲏ"); ("ⲑ", "Ⲑ"); ("ⲓ", "Ⲓ");
   ("ⲕ", "Ⲕ"); ("ⲗ", "Ⲗ"); ("ⲙ", "Ⲙ"); ("ⲛ", "Ⲛ");
   ("ⲝ", "Ⲝ"); ("ⲟ", "Ⲟ"); ("ⲡ", "Ⲡ"); ("ⲣ", "Ⲣ");
   ("ⲥ", "Ⲥ"); ("ⲧ", "Ⲧ"); ("ⲩ", "Ⲩ"); ("ⲫ", "Ⲫ");
   ("ⲭ", "Ⲭ"); ("ⲯ", "Ⲯ"); ("ⲱ", "Ⲱ"); ("ⲳ", "Ⲳ");
   ("ⲵ", "Ⲵ"); ("ⲷ", "Ⲷ"); ("ⲹ", "Ⲹ"); ("ⲻ", "Ⲻ");
   ("ⲽ", "Ⲽ"); ("ⲿ", "Ⲿ"); ("ⳁ", "Ⳁ"); ("ⳃ", "Ⳃ");
   ("ⳅ", "Ⳅ"); ("ⳇ", "Ⳇ"); ("ⳉ", "Ⳉ"); ("ⳋ", "Ⳋ");
   ("ⳍ", "Ⳍ"); ("ⳏ", "Ⳏ"); ("ⳑ", "Ⳑ"); ("ⳓ", "Ⳓ");
   ("ⳕ", "Ⳕ"); ("ⳗ", "Ⳗ"); ("ⳙ", "Ⳙ"); ("ⳛ", "Ⳛ");
   ("ⳝ", "Ⳝ"); ("ⳟ", "Ⳟ"); ("ⳡ", "Ⳡ"); ("ⳣ", "Ⳣ");
   ("ⳬ", "Ⳬ"); ("ⳮ", "Ⳮ"); ("ⳳ", "Ⳳ"); ("ⴀ", "Ⴀ");
   ("ⴁ", "Ⴁ"); ("ⴂ", "Ⴂ"); ("ⴃ", "Ⴃ"); ("ⴄ", "Ⴄ");
   ("ⴅ", "Ⴅ"); ("ⴆ", "Ⴆ"); ("ⴇ", "Ⴇ"); ("ⴈ", "Ⴈ");
   ("ⴉ", "Ⴉ"); ("ⴊ", "Ⴊ"); ("ⴋ", "Ⴋ"); ("ⴌ", "Ⴌ");
   ("ⴍ", "Ⴍ"); ("ⴎ", "Ⴎ"); ("ⴏ", "Ⴏ"); ("ⴐ", "Ⴐ");
   ("ⴑ", "Ⴑ"); ("ⴒ", "Ⴒ"); ("ⴓ", "Ⴓ"); ("ⴔ", "Ⴔ");
   ("ⴕ", "Ⴕ"); ("ⴖ", "Ⴖ"); ("ⴗ", "Ⴗ"); ("ⴘ", "Ⴘ");
   ("ⴙ", "Ⴙ"); ("ⴚ", "Ⴚ"); ("ⴛ", "Ⴛ"); ("ⴜ", "Ⴜ");
   ("ⴝ", "Ⴝ"); ("ⴞ", "Ⴞ"); ("ⴟ", "Ⴟ"); ("ⴠ", "Ⴠ");
   ("ⴡ", "Ⴡ"); ("ⴢ", "Ⴢ"); ("ⴣ", "Ⴣ"); ("ⴤ", "Ⴤ");
   ("ⴥ", "Ⴥ"); ("ⴧ", "Ⴧ"); ("ⴭ", "Ⴭ"); ("ꙁ", "Ꙁ");
   ("ꙃ", "Ꙃ"); ("ꙅ", "Ꙅ"); ("ꙇ", "Ꙇ"); ("ꙉ", "Ꙉ");
   ("ꙋ", "Ꙋ"); ("ꙍ", "Ꙍ"); ("ꙏ", "Ꙏ"); ("ꙑ", "Ꙑ");
   ("ꙓ", "Ꙓ"); ("ꙕ", "Ꙕ"); ("ꙗ", "Ꙗ"); ("ꙙ", "Ꙙ");
   ("ꙛ", "Ꙛ"); ("ꙝ", "Ꙝ"); ("ꙟ", "Ꙟ"); ("ꙡ", "Ꙡ");
   ("ꙣ", "Ꙣ"); ("ꙥ", "Ꙥ"); ("ꙧ", "Ꙧ"); ("ꙩ", "Ꙩ");
   ("ꙫ", "Ꙫ"); ("ꙭ", "Ꙭ"); ("ꚁ", "Ꚁ"); ("ꚃ", "Ꚃ");
   ("ꚅ", "Ꚅ"); ("ꚇ", "Ꚇ"); ("ꚉ", "Ꚉ"); ("ꚋ", "Ꚋ");
   ("ꚍ", "Ꚍ"); ("ꚏ", "Ꚏ"); ("ꚑ", "Ꚑ"); ("ꚓ", "Ꚓ");
   ("ꚕ", "Ꚕ"); ("ꚗ", "Ꚗ"); ("ꚙ", "Ꚙ"); ("ꚛ", "Ꚛ");
   ("ꜣ", "Ꜣ"); ("ꜥ", "Ꜥ"); ("ꜧ", "Ꜧ"); ("ꜩ", "Ꜩ");
   ("ꜫ", "Ꜫ"); ("ꜭ", "Ꜭ"); ("ꜯ", "Ꜯ"); ("ꜳ", "Ꜳ");
   ("ꜵ", "Ꜵ"); ("ꜷ", "Ꜷ"); ("ꜹ", "Ꜹ"); ("ꜻ", "Ꜻ");
   ("ꜽ", "Ꜽ"); ("ꜿ", "Ꜿ"); ("ꝁ", "Ꝁ"); ("ꝃ", "Ꝃ");
   ("ꝅ", "Ꝅ"); ("ꝇ", "Ꝇ"); ("ꝉ", "Ꝉ"); ("ꝋ", "Ꝋ");
   ("ꝍ", "Ꝍ"); ("ꝏ", "Ꝏ"); ("ꝑ", "Ꝑ"); ("ꝓ", "Ꝓ");
   ("ꝕ", "Ꝕ"); ("ꝗ", "Ꝗ"); ("ꝙ", "Ꝙ"); ("ꝛ", "Ꝛ");
   ("ꝝ", "Ꝝ"); ("ꝟ", "Ꝟ"); ("ꝡ", "Ꝡ"); ("ꝣ", "Ꝣ");
   ("ꝥ", "Ꝥ"); ("ꝧ", "Ꝧ"); ("ꝩ", "Ꝩ"); ("ꝫ", "Ꝫ");
   ("ꝭ", "Ꝭ"); ("ꝯ", "Ꝯ"); ("ꝺ", "Ꝺ"); ("ꝼ", "Ꝼ");
   ("ꝿ", "Ꝿ"); ("ꞁ", "Ꞁ"); ("ꞃ", "Ꞃ"); ("ꞅ", "Ꞅ");
   ("ꞇ", "Ꞇ"); ("ꞌ", "Ꞌ"); ("ꞑ", "Ꞑ"); ("ꞓ", "Ꞓ");
   ("ꞔ", "Ꞔ"); ("ꞗ", "Ꞗ"); ("ꞙ", "Ꞙ"); ("ꞛ", "Ꞛ");
   ("ꞝ", "Ꞝ"); ("ꞟ", "Ꞟ"); ("ꞡ", "Ꞡ"); ("ꞣ", "Ꞣ");
   ("ꞥ", "Ꞥ"); ("ꞧ", "Ꞧ"); ("ꞩ", "Ꞩ"); ("ꞵ", "Ꞵ");
   ("ꞷ", "Ꞷ"); ("ꞹ", "Ꞹ"); ("ꞻ", "Ꞻ"); ("ꞽ", "Ꞽ");
   ("ꞿ", "Ꞿ"); ("ꟁ", "Ꟁ"); ("ꟃ", "Ꟃ"); ("ꟈ", "Ꟈ");
   ("ꟊ", "Ꟊ"); ("ꟑ", "Ꟑ"); ("ꟗ", "Ꟗ"); ("ꟙ", "Ꟙ");
   ("ꟶ", "Ꟶ"); ("ꭓ", "Ꭓ"); ("ꭰ", "Ꭰ"); ("ꭱ", "Ꭱ");
   ("ꭲ", "Ꭲ"); ("ꭳ", "Ꭳ"); ("ꭴ", "Ꭴ"); ("ꭵ", "Ꭵ");
   ("ꭶ", "Ꭶ"); ("ꭷ", "Ꭷ"); ("ꭸ", "Ꭸ"); ("ꭹ", "Ꭹ");
   ("ꭺ", "Ꭺ"); ("ꭻ", "Ꭻ"); ("ꭼ", "Ꭼ"); ("ꭽ", "Ꭽ");
   ("ꭾ", "Ꭾ"); ("ꭿ", "Ꭿ"); ("ꮀ", "Ꮀ"); ("ꮁ", "Ꮁ");
   ("ꮂ", "Ꮂ"); ("ꮃ", "Ꮃ"); ("ꮄ", "Ꮄ"); ("ꮅ", "Ꮅ");
   ("ꮆ", "Ꮆ"); ("ꮇ", "Ꮇ"); ("ꮈ", "Ꮈ"); ("ꮉ", "Ꮉ");
   ("ꮊ", "Ꮊ"); ("ꮋ", "Ꮋ"); ("ꮌ", "Ꮌ"); ("ꮍ", "Ꮍ");
   ("ꮎ", "Ꮎ"); ("ꮏ", "Ꮏ"); ("ꮐ", "Ꮐ"); ("ꮑ", "Ꮑ");
   ("ꮒ", "Ꮒ"); ("ꮓ", "Ꮓ"); ("ꮔ", "Ꮔ"); ("ꮕ", "Ꮕ");
   ("ꮖ", "Ꮖ"); ("ꮗ", "Ꮗ"); ("ꮘ", "Ꮘ"); ("ꮙ", "Ꮙ");
   ("ꮚ", "Ꮚ"); ("ꮛ", "Ꮛ"); ("ꮜ", "Ꮜ"); ("ꮝ", "Ꮝ");
   ("ꮞ", "Ꮞ"); ("ꮟ", "Ꮟ"); ("ꮠ", "Ꮠ"); ("ꮡ", "Ꮡ");
   ("ꮢ", "Ꮢ"); ("ꮣ", "Ꮣ"); ("ꮤ", "Ꮤ"); ("ꮥ", "Ꮥ");
   ("ꮦ", "Ꮦ"); ("ꮧ", "Ꮧ"); ("ꮨ", "Ꮨ"); ("ꮩ", "Ꮩ");
   ("ꮪ", "Ꮪ"); ("ꮫ", "Ꮫ"); ("ꮬ", "Ꮬ"); ("ꮭ", "Ꮭ");
   ("ꮮ", "Ꮮ"); ("ꮯ", "Ꮯ"); ("ꮰ", "Ꮰ"); ("ꮱ", "Ꮱ");
   ("ꮲ", "Ꮲ"); ("ꮳ", "Ꮳ"); ("ꮴ", "Ꮴ"); ("ꮵ", "Ꮵ");
   ("ꮶ", "Ꮶ"); ("ꮷ", "Ꮷ"); ("ꮸ", "Ꮸ"); ("ꮹ", "Ꮹ");
   ("ꮺ", "Ꮺ"); ("ꮻ", "Ꮻ"); ("ꮼ", "Ꮼ"); ("ꮽ", "Ꮽ");
   ("ꮾ", "Ꮾ"); ("ꮿ", "Ꮿ"); ("ﬀ", "FF"); ("ﬁ", "FI"); ("ﬂ", "FL");
   ("ﬃ", "FFI"); ("ﬄ", "FFL"); ("ﬅ", "ST"); ("ﬆ", "ST");
   ("ﬓ", "ՄՆ"); ("ﬔ", "ՄԵ"); ("ﬕ", "ՄԻ"); ("ﬖ", "ՎՆ");
   ("ﬗ", "ՄԽ"); ("ａ", "Ａ"); ("ｂ", "Ｂ"); ("ｃ", "Ｃ");
   ("ｄ", "Ｄ"); ("ｅ", "Ｅ"); ("ｆ", "Ｆ"); ("ｇ", "Ｇ");
   ("ｈ", "Ｈ"); ("ｉ", "Ｉ"); ("ｊ", "Ｊ"); ("ｋ", "Ｋ");
   ("ｌ", "Ｌ"); ("ｍ", "Ｍ"); ("ｎ", "Ｎ"); ("ｏ", "Ｏ");
   ("ｐ", "Ｐ"); ("ｑ", "Ｑ"); ("ｒ", "Ｒ"); ("ｓ", "Ｓ");
   ("ｔ", "Ｔ"); ("ｕ", "Ｕ"); ("ｖ", "Ｖ"); ("ｗ", "Ｗ");
   ("ｘ", "Ｘ"); ("ｙ", "Ｙ"); ("ｚ", "Ｚ"); ("𐐨", "𐐀");
   ("𐐩", "𐐁"); ("𐐪", "𐐂"); ("𐐫", "𐐃"); ("𐐬", "𐐄");
   ("𐐭", "𐐅"); ("𐐮", "𐐆"); ("𐐯", "𐐇"); ("𐐰", "𐐈");
   ("𐐱", "𐐉"); ("𐐲", "𐐊"); ("𐐳", "𐐋"); ("𐐴", "𐐌");
   ("𐐵", "𐐍"); ("𐐶", "𐐎"); ("𐐷", "𐐏"); ("𐐸", "𐐐");
   ("𐐹", "𐐑"); ("𐐺", "𐐒"); ("𐐻", "𐐓"); ("𐐼", "𐐔");
   ("𐐽", "𐐕"); ("𐐾", "𐐖"); ("𐐿", "𐐗"); ("𐑀", "𐐘");
   ("𐑁", "𐐙"); ("𐑂", "𐐚"); ("𐑃", "𐐛"); ("𐑄", "𐐜");
   ("𐑅", "𐐝"); ("𐑆", "𐐞"); ("𐑇", "𐐟"); ("𐑈", "𐐠");
   ("𐑉", "𐐡"); ("𐑊", "𐐢"); ("𐑋", "𐐣"); ("𐑌", "𐐤");
   ("𐑍", "𐐥"); ("𐑎", "𐐦"); ("𐑏", "𐐧"); ("𐓘", "𐒰");
   ("𐓙", "𐒱"); ("𐓚", "𐒲"); ("𐓛", "𐒳"); ("𐓜", "𐒴");
   ("𐓝", "𐒵"); ("𐓞", "𐒶"); ("𐓟", "𐒷"); ("𐓠", "𐒸");
   ("𐓡", "𐒹"); ("𐓢", "𐒺"); ("𐓣", "𐒻"); ("𐓤", "𐒼");
   ("𐓥", "𐒽"); ("𐓦", "𐒾"); ("𐓧", "𐒿"); ("𐓨", "𐓀");
   ("𐓩", "𐓁"); ("𐓪", "𐓂"); ("𐓫", "𐓃"); ("𐓬", "𐓄");
   ("𐓭", "𐓅"); ("𐓮", "𐓆"); ("𐓯", "𐓇"); ("𐓰", "𐓈");
   ("𐓱", "𐓉"); ("𐓲", "𐓊"); ("𐓳", "𐓋"); ("𐓴", "𐓌");
   ("𐓵", "𐓍"); ("𐓶", "𐓎"); ("𐓷", "𐓏"); ("𐓸", "𐓐");
   ("𐓹", "𐓑"); ("𐓺", "𐓒"); ("𐓻", "𐓓"); ("𐖗", "𐕰");
   ("𐖘", "𐕱"); ("𐖙", "𐕲"); ("𐖚", "𐕳"); ("𐖛", "𐕴");
   ("𐖜", "𐕵"); ("𐖝", "𐕶"); ("𐖞", "𐕷"); ("𐖟", "𐕸");
   ("𐖠", "𐕹"); ("𐖡", "𐕺"); ("𐖣", "𐕼"); ("𐖤", "𐕽");
   ("𐖥", "𐕾"); ("𐖦", "𐕿"); ("𐖧", "𐖀"); ("𐖨", "𐖁");
   ("𐖩", "𐖂"); ("𐖪", "𐖃"); ("𐖫", "𐖄"); ("𐖬", "𐖅");
   ("𐖭", "𐖆"); ("𐖮", "𐖇"); ("𐖯", "𐖈"); ("𐖰", "𐖉");
   ("𐖱", "𐖊"); ("𐖳", "𐖌"); ("𐖴", "𐖍"); ("𐖵", "𐖎");
   ("𐖶", "𐖏"); ("𐖷", "𐖐"); ("𐖸", "𐖑"); ("𐖹", "𐖒");
   ("𐖻", "𐖔"); ("𐖼", "𐖕"); ("𐳀", "𐲀"); ("𐳁", "𐲁");
   ("𐳂", "𐲂"); ("𐳃", "𐲃"); ("𐳄", "𐲄"); ("𐳅", "𐲅");
   ("𐳆", "𐲆"); ("𐳇", "𐲇"); ("𐳈", "𐲈"); ("𐳉", "𐲉");
   ("𐳊", "𐲊"); ("𐳋", "𐲋"); ("𐳌", "𐲌"); ("𐳍", "𐲍");
   ("𐳎", "𐲎"); ("𐳏", "𐲏"); ("𐳐", "𐲐"); ("𐳑", "𐲑");
   ("𐳒", "𐲒"); ("𐳓", "𐲓"); ("𐳔", "𐲔"); ("𐳕", "𐲕");
   ("𐳖", "𐲖"); ("𐳗", "𐲗"); ("𐳘", "𐲘"); ("𐳙", "𐲙");
   ("𐳚", "𐲚"); ("𐳛", "𐲛"); ("𐳜", "𐲜"); ("𐳝", "𐲝");
   ("𐳞", "𐲞"); ("𐳟", "𐲟"); ("𐳠", "𐲠"); ("𐳡", "𐲡");
   ("𐳢", "𐲢"); ("𐳣", "𐲣"); ("𐳤", "𐲤"); ("𐳥", "𐲥");
   ("𐳦", "𐲦"); ("𐳧", "𐲧"); ("𐳨", "𐲨"); ("𐳩", "𐲩");
   ("𐳪", "𐲪"); ("𐳫", "𐲫"); ("𐳬", "𐲬"); ("𐳭", "𐲭");
   ("𐳮", "𐲮"); ("𐳯", "𐲯"); ("𐳰", "𐲰"); ("𐳱", "𐲱");
   ("𐳲", "𐲲"); ("𑣀", "𑢠"); ("𑣁", "𑢡"); ("𑣂", "𑢢");
   ("𑣃", "𑢣"); ("𑣄", "𑢤"); ("𑣅", "𑢥"); ("𑣆", "𑢦");
   ("𑣇", "𑢧"); ("𑣈", "𑢨"); ("𑣉", "𑢩"); ("𑣊", "𑢪");
   ("𑣋", "𑢫"); ("𑣌", "𑢬"); ("𑣍", "𑢭"); ("𑣎", "𑢮");
   ("𑣏", "𑢯"); ("𑣐", "𑢰"); ("𑣑", "𑢱"); ("𑣒", "𑢲");
   ("𑣓", "𑢳"); ("𑣔", "𑢴"); ("𑣕", "𑢵"); ("𑣖", "𑢶");
   ("𑣗", "𑢷"); ("𑣘", "𑢸"); ("𑣙", "𑢹"); ("𑣚", "𑢺");
   ("𑣛", "𑢻"); ("𑣜", "𑢼"); ("𑣝", "𑢽"); ("𑣞", "𑢾");
   ("𑣟", "𑢿"); ("𖹠", "𖹀"); ("𖹡", "𖹁"); ("𖹢", "𖹂");
   ("𖹣", "𖹃"); ("𖹤", "𖹄"); ("𖹥", "𖹅"); ("𖹦", "𖹆");
   ("𖹧", "𖹇"); ("𖹨", "𖹈"); ("𖹩", "𖹉"); ("𖹪", "𖹊");
   ("𖹫", "𖹋"); ("𖹬", "𖹌"); ("𖹭", "𖹍"); ("𖹮", "𖹎");
   ("𖹯", "𖹏"); ("𖹰", "𖹐"); ("𖹱", "𖹑"); ("𖹲", "𖹒");
   ("𖹳", "𖹓"); ("𖹴", "𖹔"); ("𖹵", "𖹕"); ("𖹶", "𖹖");
   ("𖹷", "𖹗"); ("𖹸", "𖹘"); ("𖹹", "𖹙"); ("𖹺", "𖹚");
   ("𖹻", "𖹛"); ("𖹼", "𖹜"); ("𖹽", "𖹝"); ("𖹾", "𖹞");
   ("𖹿", "𖹟"); ("𞤢", "𞤀"); ("𞤣", "𞤁"); ("𞤤", "𞤂");
   ("𞤥", "𞤃"); ("𞤦", "𞤄"); ("𞤧", "𞤅"); ("𞤨", "𞤆");
   ("𞤩", "𞤇"); ("𞤪", "𞤈"); ("𞤫", "𞤉"); ("𞤬", "𞤊");
   ("𞤭", "𞤋"); ("𞤮", "𞤌"); ("𞤯", "𞤍"); ("𞤰", "𞤎");
   ("𞤱", "𞤏"); ("𞤲", "𞤐"); ("𞤳", "𞤑"); ("𞤴", "𞤒");
   ("𞤵", "𞤓"); ("𞤶", "𞤔"); ("𞤷", "𞤕"); ("𞤸", "𞤖");
   ("𞤹", "𞤗"); ("𞤺", "𞤘"); ("𞤻", "𞤙"); ("𞤼", "𞤚");
   ("𞤽", "𞤛"); ("𞤾", "𞤜"); ("𞤿", "𞤝"); ("𞥀", "𞤞");
   ("𞥁", "𞤟"); ("𞥂", "𞤠"); ("𞥃", "𞤡")].

Fixpoint assoc (k : string) (l : list (string * string)) : option string :=
  match l with
  | [] => None
  | (k', v) :: l' => if String.eqb k k' then Some v else assoc k l'
  end.

(** The upper-case form of one character, given by its bytes. *)
Definition upper_char (k : string) : string :=
  match assoc k upper_table with
  | Some v => v
  | None => k
  end.

(** A continuation byte of a character of several bytes. *)
Definition is_cont (c : ascii) : bool := between 128 c 191.

(** [s.upper()]: the string is read character by character, a character
    being one byte, or a lead byte with its one to three continuation bytes,
    and each character is replaced by its upper-case form. *)
Fixpoint upper (s : string) : string :=
  match s with
  | EmptyString => EmptyString
  | String a s1 =>
      let single := upper_char (String a EmptyString) +:+ upper s1 in
      match s1 with
      | EmptyString => single
      | String b s2 =>
          if between 194 a 223 && is_cont b
          then upper_char (String a (String b EmptyString)) +:+ upper s2
          else
          match s2 with
          | EmptyString => single
          | String c s3 =>
              if between 224 a 239 && is_cont b && is_cont c
              then upper_char (String a (String b (String c EmptyString))) +:+ upper s3
              else
              match s3 with
              | EmptyString => single
              | String d s4 =>
                  if between 240 a 244 && is_cont b && is_cont c && is_cont d
                  then upper_char
                         (String a (String b (String c (String d EmptyString))))
                       +:+ upper s4
                  else single
              end
          end
      end
  end.

(** Truthiness of a [str]: the empty string is false. *)
Definition truthy (s : string) : bool :=
  match s with EmptyString => false | String _ _ => true end.

End PyStr.

(** An exception, as far as the script looks at it: the text [str(e)]. *)
Definition exn : Type := string.

Inductive result (A : Type) : Type :=
| Ok (a : A)
| Raise (e : exn).
Arguments Ok {A} a.
Arguments Raise {A} e.

(** ** Handles built during initialization *)

(** An embedding vector.  The script never looks inside one; integers stand
    for its components. *)
Definition Vec : Type := list Z.

Record Embeddings : Type := mkEmbeddings {
  emb_model : string;
  emb_api_key : string
}.

Record VectorStore : Type := mkVectorStore {
  persist_directory : string;
  embedding_function : Embeddings;
  collection : list (Document * Vec)
}.

Record VectorStoreRetriever : Type := mkRetriever {
  vectorstore_of : VectorStore;
  search_type : string;
  search_k : nat
}.

Record ChatOpenAI : Type := mkChatOpenAI {
  model : string;
  temperature : Z;
  openai_api_key : string
}.

Record PromptTemplate : Type := mkPromptTemplate {
  template : string;
  input_variables : list string
}.

Record RetrievalQA : Type := mkRetrievalQA {
  llm : ChatOpenAI;
  chain_type : string;
  retriever_of : VectorStoreRetriever;
  return_source_documents : bool;
  prompt : PromptTemplate
}.

(** The dictionary a chain call returns; either key may be missing. *)
Record ChainOutput : Type := mkChainOutput {
  out_result : option string;
  out_source_documents : option (list Document)
}.

(** [class RealEstateChatbot]: the four attributes, [None] until set. *)
Record RealEstateChatbot : Type := mkChatbot {
  vectorstore : option VectorStore;
  retriever : option VectorStoreRetriever;
  chain : option RetrievalQA;
  chat_model : option ChatOpenAI
}.

(** [RealEstateChatbot.__init__] *)
Definition new_chatbot : RealEstateChatbot :=
  {| vectorstore := None; retriever := None; chain := None; chat_model := None |}.

Definition set_vectorstore (v : VectorStore) (b : RealEstateChatbot) : RealEstateChatbot :=
  {| vectorstore := Some v; retriever := retriever b; chain := chain b;
     chat_model := chat_model b |}.
Definition set_retriever (r : VectorStoreRetriever) (b : RealEstateChatbot) : RealEstateChatbot :=
  {| vectorstore := vectorstore b; retriever := Some r; chain := chain b;
     chat_model := chat_model b |}.
Definition set_chat_model (m : ChatOpenAI) (b : RealEstateChatbot) : RealEstateChatbot :=
  {| vectorstore := vectorstore b; retriever := retriever b; chain := chain b;
     chat_model := Some m |}.
Definition set_chain (c : RetrievalQA) (b : RealEstateChatbot) : RealEstateChatbot :=
  {| vectorstore := vectorstore b; retriever := retriever b; chain := Some c;
     chat_model := chat_model b |}.

(** ** The world outside the process *)

(** What a path on disk holds. *)
Inductive Node : Type :=
| CsvFile (rows : list string)
| ChromaDir (entries : list (Document * Vec))
| OtherFile.

(** What the run does that can be seen from outside: the messages it shows
    and the calls it makes to the hosted services. *)
Inductive Event : Type :=
| StError (msg : string)
| StWarning (msg : string)
| StSuccess (msg : string)
| ChatMessage (who content : string)
| Completion (api_key : string)
| EmbedChunk (chunk : Document)
| Predict (text : string)
| ChainCall (query : string)
| Rerun.

Record World : Type := mkWorld {
  fs : gmap string Node;
  trace : list Event
}.

(** Library calls that the script makes during initialization and that may
    raise. *)
Inductive LibCall : Type :=
| LoadCsv | NewEmbeddings | OpenIndex | WriteIndex | AsRetriever
| NewChatModel | NewPrompt | NewChain.

(** The answers of the hosted services, and the faults of the library calls.
    Each may depend on everything that happened so far. *)
Record Services : Type := mkServices {
  completions_create : World -> string -> result unit;
  embed : World -> Embeddings -> string -> result Vec;
  predict : World -> ChatOpenAI -> string -> result string;
  run_chain : World -> RetrievalQA -> string -> result ChainOutput;
  library_fault : World -> LibCall -> option exn
}.

(** The three instruction texts of the script.  They are long literals on
    which nothing below depends; the development takes them as given. *)
Record Prompts : Type := mkPrompts {
  classification_prompt : string -> string;
  general_prompt : string -> string;
  prompt_template : string
}.

(** ** Computations: state and exceptions *)

Definition M (S A : Type) : Type := S -> result A * S.

Definition ret {S A} (a : A) : M S A := fun s => (Ok a, s).
Definition raise {S A} (e : exn) : M S A := fun s => (Raise e, s).
Definition bind {S A B} (m : M S A) (f : A -> M S B) : M S B :=
  fun s => match m s with
           | (Ok a, s') => f a s'
           | (Raise e, s') => (Raise e, s')
           end.
(** [try: body / except Exception as e: handler]; the state reached when the
    exception was raised is the one the handler starts from. *)
Definition try_except {S A} (body : M S A) (handler : exn -> M S A) : M S A :=
  fun s => match body s with
           | (Ok a, s') => (Ok a, s')
           | (Raise e, s') => handler e s'
           end.
Definition gets {S A} (f : S -> A) : M S A := fun s => (Ok (f s), s).
Definition modify {S} (f : S -> S) : M S unit := fun s => (Ok tt, f s).

Notation "'let*' x := m 'in' f" := (bind m (fun x => f))
  (at level 10, x pattern, m at level 100, f at level 200).
Notation "m ;;; f" := (bind m (fun _ => f))
  (at level 100, f at level 200, right associativity).

(** A computation on the world, run by a computation that also holds a local
    state. *)
Definition io {X A} (m : M World A) : M (X * World) A :=
  fun s => match m (snd s) with (r, w) => (r, (fst s, w)) end.

(** ** Calls into Streamlit, the file system and the libraries *)

Section Program.

Variable svc : Services.
Variable txt : Prompts.

Definition emit (ev : Event) : M World unit :=
  modify (fun w => mkWorld (fs w) (trace w ++ [ev])).

Definition st_error (msg : string) : M World unit := emit (StError msg).
Definition st_warning (msg : string) : M World unit := emit (StWarning msg).
Definition st_success (msg : string) : M World unit := emit (StSuccess msg).

(** [os.path.exists] *)
Definition os_path_exists (path : string) : M World bool :=
  gets (fun w => bool_decide (is_Some (fs w !! path))).

(** A call to a hosted service: the call is recorded, then the service
    answers or fails. *)
Definition ask {A} (ev : Event) (answer : World -> result A) : M World A :=
  emit ev;;; (fun w => (answer w, w)).

(** A library call that raises when the library faults and otherwise
    carries on. *)
Definition lib (c : LibCall) : M World unit :=
  fun w => match library_fault svc w c with
           | Some e => (Raise e, w)
           | None => (Ok tt, w)
           end.

(** Modelled from the spec: [CSVLoader.load] is library code absent from the
    sources.  Section 4.2: one record per data row, in order, each carrying
    the row's text and metadata identifying its row; a missing or unreadable
    dataset is a failure. *)
Definition CSVLoader_load (file_path : string) : M World (list Document) :=
  lib LoadCsv;;;
  let* node := gets (fun w => fs w !! file_path) in
  match node with
  | Some (CsvFile rows) => ret (imap (fun i r => mkDocument r file_path i) rows)
  | _ => raise ("Error loading " +:+ file_path)
  end.

Definition OpenAIEmbeddings (model_name api_key : string) : M World Embeddings :=
  lib NewEmbeddings;;; ret (mkEmbeddings model_name api_key).

(** Modelled from the spec: the [Chroma] constructor is library code absent
    from the sources.  Section 4.4: a storage location that already contains
    a persisted index is opened and reused as it is. *)
Definition Chroma_open (dir : string) (emb : Embeddings) : M World VectorStore :=
  lib OpenIndex;;;
  let* node := gets (fun w => fs w !! dir) in
  match node with
  | Some (ChromaDir entries) => ret (mkVectorStore dir emb entries)
  | _ => raise ("Could not open " +:+ dir)
  end.

(** One call to the embedding boundary for one chunk. *)
Definition embed_chunk (emb : Embeddings) (d : Document) : M World (Document * Vec) :=
  let* v := ask (EmbedChunk d) (fun w => embed svc w emb (page_content d)) in
  ret (d, v).

Fixpoint embed_chunks (emb : Embeddings) (ds : list Document)
    : M World (list (Document * Vec)) :=
  match ds with
  | [] => ret []
  | d :: ds' =>
      let* e := embed_chunk emb d in
      let* es := embed_chunks emb ds' in
      ret (e :: es)
  end.

(** Modelled from the spec: [Chroma.from_documents] is library code absent
    from the sources.  Section 4.4: embed every chunk and write a fresh
    index to the storage location; an embedding failure propagates and
    leaves no partial index. *)
Definition Chroma_from_documents (docs : list Document) (emb : Embeddings)
    (dir : string) : M World VectorStore :=
  let* entries := embed_chunks emb docs in
  lib WriteIndex;;;
  modify (fun w => mkWorld (<[dir := ChromaDir entries]> (fs w)) (trace w));;;
  ret (mkVectorStore dir emb entries).

Definition as_retriever (v : VectorStore) (kind : string) (n : nat)
    : M World VectorStoreRetriever :=
  lib AsRetriever;;; ret (mkRetriever v kind n).

Definition new_ChatOpenAI (model_name : string) (temp : Z) (api_key : string)
    : M World ChatOpenAI :=
  lib NewChatModel;;; ret (mkChatOpenAI model_name temp api_key).

Definition new_PromptTemplate (t : string) (vars : list string) : M World PromptTemplate :=
  lib NewPrompt;;; ret (mkPromptTemplate t vars).

Definition RetrievalQA_from_chain_type (l : ChatOpenAI) (kind : string)
    (r : VectorStoreRetriever) (with_sources : bool) (p : PromptTemplate)
    : M World RetrievalQA :=
  lib NewChain;;; ret (mkRetrievalQA l kind r with_sources p).

(** ** [class RealEstateChatbot] *)

(** A method runs on [self] and the world. *)
Definition Method (A : Type) : Type := M (RealEstateChatbot * World) A.

Definition self {A} (f : RealEstateChatbot -> A) : Method A :=
  gets (fun s => f (fst s)).
Definition assign (f : RealEstateChatbot -> RealEstateChatbot) : Method unit :=
  modify (fun s => (f (fst s), snd s)).

Definition test_api_key (api_key : string) : Method bool :=
  try_except
    (io (ask (Completion api_key) (fun w => completions_create svc w api_key));;;
     ret true)
    (fun e =>
       io (st_error ("Invalid API Key: " +:+ e));;;
       ret false).

Definition initialize_components (api_key : string) : Method bool :=
  try_except
    (let* valid := test_api_key api_key in
     if negb valid then ret false else
     let* found := io (os_path_exists "Property_data.csv") in
     if negb found then
       io (st_error "Property_data.csv file not found!");;;
       ret false
     else
     let* documents := io (CSVLoader_load "Property_data.csv") in
     let docs := Chunker.split_documents 1000 100 documents in
     let* embeddings := io (OpenAIEmbeddings "text-embedding-3-large" api_key) in
     let* indexed := io (os_path_exists "chroma_db") in
     let* store :=
       (if indexed then io (Chroma_open "chroma_db" embeddings)
        else io (Chroma_from_documents docs embeddings "chroma_db")) in
     assign (set_vectorstore store);;;
     let* r := io (as_retriever store "similarity" 5) in
     assign (set_retriever r);;;
     let* cm := io (new_ChatOpenAI "gpt-4o" 0 api_key) in
     assign (set_chat_model cm);;;
     let* PROMPT := io (new_PromptTemplate (prompt_template txt) ["context"; "question"]) in
     let* qa := io (RetrievalQA_from_chain_type cm "stuff" r true PROMPT) in
     assign (set_chain qa);;;
     io (st_success "Chatbot initialized successfully!");;;
     ret true)
    (fun e =>
       io (st_error ("Error initializing chatbot: " +:+ e));;;
       ret false).

(** [self.chat_model.predict(text)]; on a chatbot whose model is still
    [None] the attribute lookup raises. *)
Definition chat_model_predict (text : string) : Method string :=
  let* cm := self chat_model in
  match cm with
  | Some m => io (ask (Predict text) (fun w => predict svc w m text))
  | None => raise "'NoneType' object has no attribute 'predict'"
  end.

Definition classify_query_intent (query : string) : Method string :=
  try_except
    (let* response := chat_model_predict (classification_prompt txt query) in
     ret (PyStr.upper (PyStr.strip response)))
    (fun _ => ret "PROPERTY").

Definition general_fallback : string :=
  "Hello! I'm your Real Estate Assistant. How can I help you find the perfect property today?".

Definition get_general_response (query : string) : Method (string * list Document) :=
  try_except
    (let* response := chat_model_predict (general_prompt txt query) in
     ret (PyStr.strip response, []))
    (fun _ => ret (general_fallback, [])).

(** [self.chain({"query": query})]; calling [None] raises. *)
Definition chain_call (query : string) : Method ChainOutput :=
  let* c := self chain in
  match c with
  | Some qa => io (ask (ChainCall query) (fun w => run_chain svc w qa query))
  | None => raise "'NoneType' object is not callable"
  end.

Definition property_apology : string :=
  "I'm sorry, I encountered an error while searching for properties: ".

Definition get_property_response (query : string) : Method (string * list Document) :=
  try_except
    (let* result := chain_call query in
     match out_result result with
     | Some answer => ret (answer, default [] (out_source_documents result))
     | None => raise "'result'"
     end)
    (fun e => ret (property_apology +:+ e, [])).

Definition get_response (query : string) : Method (string * list Document) :=
  try_except
    (let* intent := classify_query_intent query in
     if bool_decide (intent = "GENERAL") then get_general_response query
     else get_property_response query)
    (fun e => ret ("I'm sorry, I encountered an error: " +:+ e, [])).

End Program.

(** ** The Streamlit script *)

(** A chat message: the dictionary with the keys [role] and [content]. *)
Record Message : Type := mkMessage {
  role : string;
  content : string
}.

(** [st.session_state].  [chatbot] and [messages] may be absent; the flag
    [initialized] is created together with [chatbot] and is read only after
    it, so its absence is not represented. *)
Record SessionState : Type := mkSession {
  chatbot : option RealEstateChatbot;
  initialized : bool;
  messages : option (list Message)
}.

Definition fresh_session : SessionState :=
  {| chatbot := None; initialized := false; messages := None |}.

(** What the widgets return in one run of the script: the text of the key
    field, the submitted chat line if any, and whether the clear button was
    pressed. *)
Record Inputs : Type := mkInputs {
  text_input : string;
  chat_input : option string;
  button : bool
}.

(** How a run of the script ends: it returns, or [st.rerun()] stops it. *)
Inductive Outcome : Type := Finished | RerunRequested.

Definition greeting : Message :=
  mkMessage "assistant" "Hello! I'm your Real Estate Assistant. How can I help you today?".

Section Script.

Variable svc : Services.
Variable txt : Prompts.

Definition Script (A : Type) : Type := M (SessionState * World) A.

Definition session {A} (f : SessionState -> A) : Script A :=
  gets (fun s => f (fst s)).
Definition update (f : SessionState -> SessionState) : Script unit :=
  modify (fun s => (f (fst s), snd s)).

Definition set_chatbot (b : RealEstateChatbot) (s : SessionState) : SessionState :=
  {| chatbot := Some b; initialized := initialized s; messages := messages s |}.
Definition set_initialized (v : bool) (s : SessionState) : SessionState :=
  {| chatbot := chatbot s; initialized := v; messages := messages s |}.
Definition set_messages (l : list Message) (s : SessionState) : SessionState :=
  {| chatbot := chatbot s; initialized := initialized s; messages := Some l |}.

(** [st.session_state.chatbot.method(...)]: the method runs on the stored
    object, which keeps what the method assigns. *)
Definition call {A} (m : Method A) : Script A :=
  fun s =>
    match chatbot (fst s) with
    | Some b =>
        match m (b, snd s) with
        | (r, (b', w')) => (r, (set_chatbot b' (fst s), w'))
        end
    | None => (Raise "st.session_state has no attribute 'chatbot'", s)
    end.

(** [st.session_state.messages.append(m)] *)
Definition append_message (m : Message) : Script unit :=
  let* ms := session messages in
  match ms with
  | Some l => update (set_messages (l ++ [m]))
  | None => raise "st.session_state has no attribute 'messages'"
  end.

(** The loop that displays the chat history. *)
Definition shown (m : Message) : Event :=
  if bool_decide (role m = "user") then ChatMessage "user" (content m)
  else ChatMessage "assistant" (content m).

Fixpoint display (l : list Message) : M World unit :=
  match l with
  | [] => ret tt
  | m :: l' => emit (shown m);;; display l'
  end.

Definition st_rerun : Script Outcome :=
  io (emit Rerun);;; ret RerunRequested.

(** Truthiness of what [st.chat_input] returned. *)
Definition submitted (q : option string) : option string :=
  match q with
  | Some s => if PyStr.truthy s then Some s else None
  | None => None
  end.

Definition main (inp : Inputs) : Script Outcome :=
  let api_key := text_input inp in
  (* Initialize chatbot *)
  let* bot := session chatbot in
  (match bot with
   | None => update (fun s => mkSession (Some new_chatbot) false (messages s))
   | Some _ => ret tt
   end);;;
  (* Initialize components if API key is provided *)
  let* ready := session initialized in
  (if PyStr.truthy api_key && negb ready then
     let* ok := call (initialize_components svc txt api_key) in
     if ok then update (set_initialized true) else ret tt
   else ret tt);;;
  (* Main chat interface *)
  if negb (PyStr.truthy api_key) then
    io (st_warning "Please enter your OpenAI API Key in the sidebar to start chatting.");;;
    ret Finished
  else
  let* ready := session initialized in
  if negb ready then
    io (st_error "Chatbot not initialized. Please check your API key and dataset.");;;
    ret Finished
  else
  (* Initialize chat history *)
  let* ms := session messages in
  (match ms with
   | None => update (set_messages []);;; append_message greeting
   | Some _ => ret tt
   end);;;
  (* Display chat history *)
  let* history := session messages in
  io (display (default [] history));;;
  (* User input *)
  match submitted (chat_input inp) with
  | Some user_query =>
      append_message (mkMessage "user" user_query);;;
      let* answer := call (get_response svc txt user_query) in
      append_message (mkMessage "assistant" (fst answer));;;
      st_rerun
  | None =>
      (* Clear chat button *)
      if button inp then
        update (set_messages [greeting]);;;
        st_rerun
      else ret Finished
  end.

(** One step of a session: the script runs once on what the widgets hold,
    or the files on disk change outside the process, within what [disk]
    allows. *)
Inductive step (disk : gmap string Node -> Prop)
    : SessionState * World -> SessionState * World -> Prop :=
| step_run inp s r s' :
    main inp s = (r, s') -> step disk s s'
| step_disk sess w files :
    disk files -> step disk (sess, w) (sess, mkWorld files (trace w)).

End Script.


(** The calls of the answering pipeline: classification, generation, and the
    retrieval chain. *)
Definition pipeline_call (ev : Event) : bool :=
  match ev with
  | Predict _ | ChainCall _ => true
  | _ => false
  end.

Definition embedding_call (ev : Event) : bool :=
  match ev with
  | EmbedChunk _ => true
  | _ => false
  end.

Definition error_shown (ev : Event) : bool :=
  match ev with
  | StError _ => true
  | _ => false
  end.

(** The events a run added to the trace. *)
Definition added (before after : World) : list Event :=
  drop (length (trace before)) (trace after).

(** ** The retriever *)

Module Retriever.

Section Search.

(** The similarity of two embeddings; a larger score is a closer match.
    Only the order of scores is observed. *)
Variable similarity : Vec -> Vec -> Z.

(** [closer q a b]: entry [a] is at least as similar to [q] as [b]. *)
Definition closer (q : Vec) : relation (Document * Vec) :=
  fun a b => (similarity q (snd b) <= similarity q (snd a))%Z.

Global Instance closer_dec q : RelDecision (closer q).
Proof. intros a b. unfold closer. apply _. Defined.

(** Modelled from the spec: the similarity search of the vector store is
    library code absent from the sources; [initialize_components] only
    fixes the strategy and the width.  Section 4.5: the k chunks whose
    embeddings are most similar to the query's embedding, ranked
    most-to-least similar, with no minimum similarity; fewer when the
    index holds fewer. *)
Definition search (r : VectorStoreRetriever) (q : Vec) : list (Document * Vec) :=
  take (search_k r) (merge_sort (closer q) (collection (vectorstore_of r))).

Definition get_relevant_documents (r : VectorStoreRetriever) (q : Vec) : list Document :=
  fst <$> search r q.

End Search.

End Retriever.

(** The world after one more event. *)
Definition after (w : World) (ev : Event) : World :=
  mkWorld (fs w) (trace w ++ [ev]).

(** The world after the chat history has been displayed. *)
Definition displayed (l : list Message) (w : World) : World :=
  mkWorld (fs w) (trace w ++ (shown <$> l)).



(** No library call made during initialization faults, whatever has
    happened before it. *)
Definition libraries_sound (svc : Services) : Prop :=
  forall w c, library_fault svc w c = None.

(** The embedding service answers every request. *)
Definition embedding_up (svc : Services) : Prop :=
  forall w emb t, exists v, embed svc w emb t = Ok v.

(** ** Sample data *)

Definition sample_prompts : Prompts :=
  {| classification_prompt := fun q => "Classify: " +:+ q;
     general_prompt := fun q => "Chat: " +:+ q;
     prompt_template := "Context: {context} Question: {question}" |}.

Definition sample_doc : Document :=
  mkDocument "Location: DHA Karachi, Price: 50 lakh, Bedrooms: 3" "Property_data.csv" 0.

(** Services that all answer; the classifier says GENERAL, in lower case and
    with blanks around it. *)
Definition sample_services : Services :=
  {| completions_create := fun _ _ => Ok tt;
     embed := fun _ _ t => Ok [Z.of_nat (String.length t)];
     predict := fun _ _ _ => Ok " general ";
     run_chain := fun _ _ _ => Ok (mkChainOutput (Some "One house matches.") (Some [sample_doc]));
     library_fault := fun _ _ => None |}.

(** Services whose chat model and chain both fail with the given text. *)
Definition services_down (e : exn) : Services :=
  {| completions_create := fun _ _ => Ok tt;
     embed := fun _ _ t => Ok [Z.of_nat (String.length t)];
     predict := fun _ _ _ => Raise e;
     run_chain := fun _ _ _ => Raise e;
     library_fault := fun _ _ => None |}.


(** The word general in lower case, after a no-break space (U+00A0, the bytes
    194 160) and before an ideographic space (U+3000, the bytes 227 128
    128). *)
Definition padded_general : string :=
  String (ascii_of_nat 194) (String (ascii_of_nat 160)
    ("general" +:+
     String (ascii_of_nat 227) (String (ascii_of_nat 128) (String (ascii_of_nat 128) "")))).

(** Services whose classifier answers with that text. *)
Definition services_padded : Services :=
  {| completions_create := fun _ _ => Ok tt;
     embed := fun _ _ t => Ok [Z.of_nat (String.length t)];
     predict := fun _ _ _ => Ok padded_general;
     run_chain := fun _ _ _ => Ok (mkChainOutput (Some "One house matches.") (Some [sample_doc]));
     library_fault := fun _ _ => None |}.

Definition empty_world : World := mkWorld ∅ [].

(** A disk with the dataset and no index. *)
Definition dataset_world : World :=
  mkWorld {[ "Property_data.csv" := CsvFile [page_content sample_doc] ]} [].

(** A disk with the dataset and an index that was built from other data. *)
Definition stale_entry : Document * Vec :=
  (mkDocument "Location: Lahore" "old.csv" 7, [16%Z]).

Definition indexed_world : World :=
  mkWorld (<[ "chroma_db" := ChromaDir [stale_entry] ]> (fs dataset_world)) [].

Definition sample_store : VectorStore :=
  mkVectorStore "chroma_db" (mkEmbeddings "text-embedding-3-large" "sk-test") [stale_entry].

Definition sample_model : ChatOpenAI := mkChatOpenAI "gpt-4o" 0 "sk-test".

Definition sample_chain : RetrievalQA :=
  mkRetrievalQA sample_model "stuff" (mkRetriever sample_store "similarity" 5) true
    (mkPromptTemplate (prompt_template sample_prompts) ["context"; "question"]).

(** A chatbot as a successful initialization leaves it. *)
Definition sample_chatbot : RealEstateChatbot :=
  {| vectorstore := Some sample_store;
     retriever := Some (mkRetriever sample_store "similarity" 5);
     chain := Some sample_chain;
     chat_model := Some sample_model |}.

Definition sample_session : SessionState :=
  {| chatbot := Some sample_chatbot; initialized := true;
     messages := Some [greeting; mkMessage "user" "hello"; mkMessage "assistant" "Hi!"] |}.

(** A similarity for the examples: the first component of the stored vector. *)
Definition first_component (q v : Vec) : Z := default 0%Z (head v).

(** ** Notions used to state further properties *)

(** The characters of a string, first to last. *)
Definition chars_of (s : string) : list ascii := String.list_ascii_of_string s.



(** A string with no white-space byte at either end. *)
Definition trimmed (s : string) : Prop :=
  (forall c, head (chars_of s) = Some c -> PyStr.space1 c = false) /\
  (forall c, last (chars_of s) = Some c -> PyStr.space1 c = false).


(** The bytes of a character of several bytes are all 128 or more. *)
Definition high (k : string) : Prop :=
  Forall (fun c => 128 <= nat_of_ascii c) (chars_of k).

(** A character as [upper] reads it: one byte, or several high bytes. *)
Definition chunk (k : string) : Prop :=
  (exists a, k = String a "") \/ (k <> "" /\ high k).

(** The history after some chat turns: the greeting, then for each turn the
    user's line followed by the assistant's answer. *)
Definition history_of (turns : list (string * string)) : list Message :=
  greeting ::
  (turns ≫= fun t => [mkMessage "user" (fst t); mkMessage "assistant" (snd t)]).

(** The history of a session is absent or has that shape. *)
Definition well_formed (ms : option (list Message)) : Prop :=
  match ms with
  | None => True
  | Some l => exists turns, l = history_of turns
  end.

(** The calls that belong to setting the chatbot up: the key test and the
    embedding of chunks. *)
Definition setup_call (ev : Event) : bool :=
  match ev with
  | Completion _ | EmbedChunk _ => true
  | _ => false
  end.

(** Any change of the disk is allowed. *)
Definition any_disk (files : gmap string Node) : Prop := True.


(** Services whose chain returns a dictionary without its keys. *)
Definition services_partial : Services :=
  {| completions_create := fun _ _ => Ok tt;
     embed := fun _ _ t => Ok [Z.of_nat (String.length t)];
     predict := fun _ _ _ => Ok "PROPERTY";
     run_chain := fun _ _ _ => Ok (mkChainOutput None None);
     library_fault := fun _ _ => None |}.

(** Services that reject the key. *)
Definition services_bad_key : Services :=
  {| completions_create := fun _ _ => Raise "401 Unauthorized";
     embed := fun _ _ t => Ok [Z.of_nat (String.length t)];
     predict := fun _ _ _ => Ok "PROPERTY";
     run_chain := fun _ _ _ => Raise "unreachable";
     library_fault := fun _ _ => None |}.

(** * Properties *)

Example windows_small :
  Chunker.split_text 5 2 "abcdefghij" = ["abcde"; "defgh"; "ghij"].
Proof. reflexivity. Qed.

(** ** The text splitter *)

Section ChunkerFacts.

Import Chunker.

Lemma length_chars s : length (chars s) = String.length s.
Proof. induction s as [|c s IH]; simpl; [done | by rewrite IH]. Qed.

Lemma length_text l : String.length (text l) = length l.
Proof. induction l as [|c l IH]; simpl; [done | by rewrite IH]. Qed.

Lemma ceil_div_spec a b n :
  (0 < b)%Z -> (b * (n - 1) < a <= b * n)%Z -> ceil_div a b = n.
Proof.
  intros Hb [Hlo Hhi]. unfold ceil_div.
  symmetry. apply (Z.div_unique_pos _ _ _ (a + b - 1 - b * n)%Z); lia.
Qed.

Lemma ceil_div_step a b :
  (0 < b)%Z -> ceil_div (a + b) b = (1 + ceil_div a b)%Z.
Proof.
  intros Hb. unfold ceil_div.
  replace (a + b + b - 1)%Z with ((a + b - 1) + 1 * b)%Z by lia.
  rewrite Z.div_add by lia. lia.
Qed.

(** The number of windows of the greedy walk. *)
Lemma windows_length maxLen overlap s :
  overlap < maxLen ->
  Z.of_nat (length (windows maxLen overlap s)) =
    if decide (length s <= maxLen) then 1%Z
    else ceil_div (Z.of_nat (length s) - Z.of_nat overlap)
                  (Z.of_nat maxLen - Z.of_nat overlap).
Proof.
  intros Hlt. funelim (windows maxLen overlap s); try lia.
  - by rewrite Heq.
  - rewrite Heq0. cbn [length]. rewrite Nat2Z.inj_succ, (H Hlt), length_drop.
    destruct (decide (length s - (maxLen - overlap) <= maxLen)) as [Hle|Hgt].
    + symmetry. apply ceil_div_spec; lia.
    + replace (Z.of_nat (length s) - Z.of_nat overlap)%Z
        with ((Z.of_nat (length s - (maxLen - overlap)) - Z.of_nat overlap)
              + (Z.of_nat maxLen - Z.of_nat overlap))%Z by lia.
      rewrite ceil_div_step by lia. lia.
Qed.

Lemma windows_bound maxLen overlap s :
  Forall (fun c => length c <= maxLen) (windows maxLen overlap s).
Proof.
  funelim (windows maxLen overlap s).
  - by repeat constructor.
  - constructor; [rewrite length_take; lia | done].
  - repeat constructor. rewrite length_take. lia.
Qed.

(** The i-th window starts [i] slides into the text. *)
Lemma windows_lookup maxLen overlap s :
  forall i c, windows maxLen overlap s !! i = Some c ->
    c = take maxLen (drop (i * (maxLen - overlap)) s).
Proof.
  funelim (windows maxLen overlap s); intros i c Hi.
  - destruct i as [|i]; simplify_eq/=.
    symmetry. by apply take_ge.
  - destruct i as [|i]; simplify_eq/=; [done|].
    rewrite (H _ _ Hi), drop_drop. do 2 f_equal; lia.
  - destruct i as [|i]; simplify_eq/=. done.
Qed.

Lemma split_text_lookup maxLen overlap s i c :
  split_text maxLen overlap s !! i = Some c ->
  c = text (take maxLen (drop (i * (maxLen - overlap)) (chars s))) /\
  String.length c <= maxLen.
Proof.
  unfold split_text. rewrite list_lookup_fmap. intros Hi.
  destruct (windows maxLen overlap (chars s) !! i) as [w|] eqn:Hw; simplify_eq/=.
  pose proof (windows_bound maxLen overlap (chars s)) as Hb.
  rewrite Forall_lookup in Hb. specialize (Hb _ _ Hw).
  split; [by rewrite (windows_lookup _ _ _ _ _ Hw) | by rewrite length_text].
Qed.

End ChunkerFacts.

(** C1.  For a record whose text has length L, the splitter configured with
    maximum length 1000 and overlap 100 walks the text greedily: the i-th
    chunk is the window of at most 1000 characters that starts 900 * i
    characters into the text.  It yields exactly one chunk when L <= 1000 and
    ceil((L - 100) / 900) chunks when L > 100 (the two agree in between),
    every chunk is at most 1000 characters long, and every chunk keeps the
    reference to its record. *)
Theorem chunker_count_and_bound (d : Document) :
  let L := String.length (page_content d) in
  let chunks := Chunker.split_document 1000 100 d in
  (L <= 1000 -> length chunks = 1) /\
  (100 < L -> Z.of_nat (length chunks) = Chunker.ceil_div (Z.of_nat L - 100) 900) /\
  (forall i c, chunks !! i = Some c ->
     page_content c =
       Chunker.text (take 1000 (drop (i * 900) (Chunker.chars (page_content d)))) /\
     String.length (page_content c) <= 1000 /\
     source c = source d /\ row c = row d).
Proof.
  intros L chunks.
  assert (Hlen : Z.of_nat (length chunks) =
                 if decide (L <= 1000) then 1%Z
                 else Chunker.ceil_div (Z.of_nat L - 100) 900).
  { unfold chunks, Chunker.split_document, Chunker.split_text.
    rewrite !length_fmap, windows_length by lia.
    rewrite length_chars. fold L.
    destruct (decide (L <= 1000)); [done|]. f_equal; lia. }
  split; [|split].
  - intros HL. destruct (decide (L <= 1000)); lia.
  - intros HL. rewrite Hlen. destruct (decide (L <= 1000)); [|done].
    symmetry. apply ceil_div_spec; lia.
  - intros i c Hi. unfold chunks, Chunker.split_document in Hi.
    rewrite list_lookup_fmap in Hi.
    destruct (Chunker.split_text 1000 100 (page_content d) !! i) as [t|] eqn:Ht;
      simplify_eq/=.
    apply split_text_lookup in Ht as [-> Hb].
    replace (1000 - 100) with 900 in * by lia. done.
Qed.

(** ** The retriever *)

Section RetrieverFacts.

Variable similarity : Vec -> Vec -> Z.

Global Instance closer_total q : Total (Retriever.closer similarity q).
Proof. intros a b. unfold Retriever.closer. lia. Qed.

Global Instance closer_trans q : Transitive (Retriever.closer similarity q).
Proof. intros a b c. unfold Retriever.closer. lia. Qed.

Lemma ranked_sorted q l :
  StronglySorted (Retriever.closer similarity q)
    (merge_sort (Retriever.closer similarity q) l).
Proof. apply StronglySorted_merge_sort; apply _. Qed.

Lemma StronglySorted_take {A} (R : relation A) n (l : list A) :
  StronglySorted R l -> StronglySorted R (take n l).
Proof.
  intros Hs. rewrite <- (take_drop n l) in Hs.
  by apply StronglySorted_app_1_l in Hs.
Qed.

End RetrieverFacts.

(** C7.  The retriever built with the similarity strategy and k = 5 returns,
    for every query embedding, min(5, n) chunks of an index that holds n: at
    most five, and all of them when the index holds fewer than five.  The
    chunks returned are ranked from most to least similar, none of the chunks
    left out is more similar than one returned, and how small the scores are
    plays no role in how many are returned. *)
Theorem retriever_top_k (similarity : Vec -> Vec -> Z) (store : VectorStore) (q : Vec) :
  let r := mkRetriever store "similarity" 5 in
  let hits := Retriever.search similarity r q in
  length (Retriever.get_relevant_documents similarity r q) = length (collection store) `min` 5 /\
  Retriever.get_relevant_documents similarity r q = fst <$> hits /\
  StronglySorted (Retriever.closer similarity q) hits /\
  (exists rest, hits ++ rest ≡ₚ collection store /\
     forall a b, a ∈ hits -> b ∈ rest -> Retriever.closer similarity q a b) /\
  (length (collection store) < 5 -> hits ≡ₚ collection store).
Proof.
  intros r hits.
  set (ranked := merge_sort (Retriever.closer similarity q) (collection store)).
  assert (Hperm : ranked ≡ₚ collection store) by apply merge_sort_Permutation.
  assert (Hsorted : StronglySorted (Retriever.closer similarity q) ranked)
    by apply ranked_sorted.
  assert (Hhits : hits = take 5 ranked) by done.
  split; [|split; [|split; [|split]]].
  - unfold Retriever.get_relevant_documents. fold hits.
    rewrite length_fmap, Hhits, length_take, Hperm. lia.
  - done.
  - rewrite Hhits. by apply StronglySorted_take.
  - exists (drop 5 ranked). rewrite Hhits, take_drop. split; [done|].
    intros a b Ha Hb. rewrite <- (take_drop 5 ranked) in Hsorted.
    by eapply StronglySorted_app_1_elem_of.
  - intros Hfew. rewrite Hhits, take_ge; [done|]. rewrite Hperm. lia.
Qed.

(** ** Running the computations *)

(** Unfolding of the plumbing: what is left is a case analysis on the
    answers of the services. *)
Ltac unfold_calls :=
  unfold get_response, get_general_response, get_property_response,
    classify_query_intent, chat_model_predict, chain_call, test_api_key,
    self, assign, io, ask, lib, st_error, st_warning, st_success,
    os_path_exists, emit, try_except, bind, ret, raise, gets, modify in *;
  simpl in *.

Ltac case_result :=
  match goal with
  | H : context [match ?x with _ => _ end] |- _ => destruct x eqn:?; simpl in H
  | |- context [match ?x with _ => _ end] => destruct x eqn:?; simpl
  end.

Ltac run := unfold_calls; repeat (case_result; simplify_eq/=); eauto.

Section ResponseFacts.

Variable svc : Services.
Variable txt : Prompts.

Lemma classify_total b w q :
  exists intent w',
    classify_query_intent svc txt q (b, w) = (Ok intent, (b, w')).
Proof. run. Qed.

Lemma general_total b w q :
  exists answer w',
    get_general_response svc txt q (b, w) = (Ok (answer, []), (b, w')).
Proof. run. Qed.

Lemma property_total b w q :
  exists answer docs w',
    get_property_response svc q (b, w) = (Ok (answer, docs), (b, w')).
Proof. run. Qed.

(** [get_response] always returns an answer; its last handler is never
    reached. *)
Lemma get_response_total b w q :
  exists answer docs w',
    get_response svc txt q (b, w) = (Ok (answer, docs), (b, w')).
Proof. run. Qed.

End ResponseFacts.

Lemma added_app w f l : added w (mkWorld f (trace w ++ l)) = l.
Proof. unfold added. simpl. by rewrite drop_app_length. Qed.

Lemma added_after2 w e1 e2 : added w (after (after w e1) e2) = [e1; e2].
Proof. unfold after. simpl. rewrite <- app_assoc. apply added_app. Qed.

(** C2.  [get_response] takes the conversational path only when the
    classification call returns a token that is exactly GENERAL once trimmed
    and upper-cased.  When the call raises, or returns anything else, the
    query is answered by the property (retrieval) path. *)
Theorem intent_routing (svc : Services) (txt : Prompts)
    (b : RealEstateChatbot) (w : World) (q : string) :
  let classification := chat_model_predict svc (classification_prompt txt q) (b, w) in
  (forall e s, classification = (Raise e, s) ->
     get_response svc txt q (b, w) = get_property_response svc q s) /\
  (forall token s, classification = (Ok token, s) ->
     PyStr.upper (PyStr.strip token) <> "GENERAL" ->
     get_response svc txt q (b, w) = get_property_response svc q s) /\
  (forall token s, classification = (Ok token, s) ->
     PyStr.upper (PyStr.strip token) = "GENERAL" ->
     get_response svc txt q (b, w) = get_general_response svc txt q s).
Proof.
  intros classification. subst classification.
  split; [|split].
  - intros e [b' w'] Hc.
    destruct (property_total svc b' w' q) as (a & d & w2 & Hp).
    unfold get_response, classify_query_intent, try_except, bind, ret in *.
    rewrite Hc. simpl. by rewrite Hp.
  - intros token [b' w'] Hc Hne.
    destruct (property_total svc b' w' q) as (a & d & w2 & Hp).
    unfold get_response, classify_query_intent, try_except, bind, ret in *.
    rewrite Hc. simpl. rewrite bool_decide_false by done. by rewrite Hp.
  - intros token [b' w'] Hc Heq.
    destruct (general_total svc txt b' w' q) as (a & w2 & Hg).
    unfold get_response, classify_query_intent, try_except, bind, ret in *.
    rewrite Hc. simpl. rewrite bool_decide_true by done. by rewrite Hg.
Qed.

(** C4 (amended).  A generation failure never escapes [get_response]: every
    query gets an answer.  When the chain call of the grounded variant fails,
    the answer is the fixed apology followed by the text of the failure; when
    the generation call of the conversational variant fails, the answer is the
    fixed greeting.  Either comes with an empty list of supporting chunks. *)
Theorem generation_failure_answered (svc : Services) (txt : Prompts)
    (b : RealEstateChatbot) (w : World) (q : string) :
  (exists answer docs w',
     get_response svc txt q (b, w) = (Ok (answer, docs), (b, w'))) /\
  (forall e s, chain_call svc q (b, w) = (Raise e, s) ->
     get_property_response svc q (b, w) = (Ok (property_apology +:+ e, []), s)) /\
  (forall e s, chat_model_predict svc (general_prompt txt q) (b, w) = (Raise e, s) ->
     get_general_response svc txt q (b, w) = (Ok (general_fallback, []), s)).
Proof.
  split; [apply get_response_total|split].
  - intros e s Hc. unfold get_property_response, try_except, bind, ret.
    by rewrite Hc.
  - intros e s Hc. unfold get_general_response, try_except, bind, ret.
    by rewrite Hc.
Qed.

(** C8.  On a chatbot whose chat model and chain are set, a query is
    classified once and answered once: [get_response] returns one pair of an
    answer and a list of supporting chunks, after exactly one classification
    call and one generation call.  With the intent GENERAL the list is empty;
    otherwise the answer and the list are those the retrieval chain
    returned. *)
Theorem one_intent_one_response (svc : Services) (txt : Prompts)
    (b : RealEstateChatbot) (w : World) (q : string)
    (m : ChatOpenAI) (c : RetrievalQA) :
  chat_model b = Some m -> chain b = Some c ->
  let asked := after w (Predict (classification_prompt txt q)) in
  exists intent answer docs w',
    classify_query_intent svc txt q (b, w) = (Ok intent, (b, asked)) /\
    get_response svc txt q (b, w) = (Ok (answer, docs), (b, w')) /\
    (intent = "GENERAL" ->
       docs = [] /\
       added w w' = [Predict (classification_prompt txt q); Predict (general_prompt txt q)]) /\
    (intent <> "GENERAL" ->
       added w w' = [Predict (classification_prompt txt q); ChainCall q] /\
       forall out a,
         run_chain svc (after asked (ChainCall q)) c q = Ok out ->
         out_result out = Some a ->
         answer = a /\ docs = default [] (out_source_documents out)).
Proof.
  intros Hm Hc asked. subst asked.
  destruct b as [vs rt ch cm]. simpl in Hm, Hc. subst ch cm.
  unfold get_response, get_general_response, get_property_response,
    classify_query_intent, chat_model_predict, chain_call,
    self, io, ask, emit, try_except, bind, ret, raise, gets, modify.
  simpl.
  fold (after w (Predict (classification_prompt txt q))).
  set (w1 := after w (Predict (classification_prompt txt q))).
  destruct (predict svc w1 m (classification_prompt txt q)) as [token|e]; simpl.
  - case_bool_decide as Hi; simpl.
    + fold (after w1 (Predict (general_prompt txt q))).
      destruct (predict svc _ m (general_prompt txt q)); simpl;
        eexists _, _, _, _; (split; [done|split; [done|]]);
        (split; [intros _; split; [done|apply added_after2]|done]).
    + fold (after w1 (ChainCall q)).
      destruct (run_chain svc _ c q) as [out|e] eqn:Hr; simpl;
        [destruct (out_result out) as [a|] eqn:Ha; simpl|];
        eexists _, _, _, _; (split; [done|split; [done|]]);
        (split; [done|intros _; split; [apply added_after2|]]);
        intros out' a' ??; by simplify_eq.
  - fold (after w1 (ChainCall q)).
    destruct (run_chain svc _ c q) as [out|e'] eqn:Hr; simpl;
      [destruct (out_result out) as [a|] eqn:Ha; simpl|];
      eexists "PROPERTY", _, _, _; (split; [done|split; [done|]]);
      (split; [done|intros _; split; [apply added_after2|]]);
      intros out' a' ??; by simplify_eq.
Qed.

Lemma filter_all {A} (P : A -> Prop) `{!forall x, Decision (P x)} (l : list A) :
  Forall P l -> filter P l = l.
Proof.
  induction 1 as [|x l Hx _ IH]; [done|].
  by rewrite filter_cons_True, IH.
Qed.

Lemma filter_none {A} (P : A -> Prop) `{!forall x, Decision (P x)} (l : list A) :
  Forall (fun x => ~ P x) l -> filter P l = [].
Proof.
  induction 1 as [|x l Hx _ IH]; [done|].
  by rewrite filter_cons_False, IH.
Qed.

Lemma embedding_not_error l :
  Forall embedding_call l -> Forall (fun ev => ~ error_shown ev) l.
Proof. intros H. eapply Forall_impl; [exact H|]. intros e He Hn. by destruct e. Qed.

Section InitFacts.

Variable svc : Services.
Variable txt : Prompts.

Lemma embed_chunks_spec emb ds w r w' :
  embed_chunks svc emb ds w = (r, w') ->
  fs w' = fs w /\
  exists evs, trace w' = trace w ++ evs /\
    Forall embedding_call evs /\
    (forall es, r = Ok es -> es.*1 = ds /\ evs = EmbedChunk <$> ds).
Proof.
  revert w r w'. induction ds as [|d ds IH]; intros w r w' H.
  - simpl in H. unfold ret in H. simplify_eq/=. split; [done|]. exists [].
    rewrite app_nil_r. split; [done|split; [done|]].
    by intros es [= <-].
  - simpl in H. unfold bind at 1 in H.
    unfold embed_chunk, ask, emit, bind, modify, ret in H. simpl in H.
    destruct (embed svc _ emb (page_content d)) as [v|e]; simpl in H.
    + destruct (embed_chunks svc emb ds _) as [r1 w1] eqn:Hrec.
      apply IH in Hrec as (Hfs & evs & Htr & Hall & Hok). simpl in *.
      destruct r1 as [es|e]; simplify_eq/=.
      * split; [done|]. exists (EmbedChunk d :: evs).
        rewrite Htr, <- app_assoc. split; [done|]. split.
        { by constructor. }
        intros ? [= <-]. destruct (Hok es eq_refl) as [Hes Hevs]. by subst.
      * split; [done|]. exists (EmbedChunk d :: evs).
        rewrite Htr, <- app_assoc. split; [done|]. split; [|done].
        by constructor.
    + simplify_eq/=. split; [done|]. exists [EmbedChunk d].
      split; [done|]. split; [|done]. by repeat constructor.
Qed.

End InitFacts.

Ltac case_hyp H :=
  match type of H with
  | context [match ?x with _ => _ end] =>
      lazymatch x with
      | context [match _ with _ => _ end] => fail
      | _ => destruct x eqn:?;
             cbn beta iota zeta delta [fst snd negb fs trace] in H
      end
  end.

Ltac tidy :=
  cbn beta iota zeta delta [fst snd negb fs trace] in *;
  repeat match goal with
  | H : negb _ = true |- _ => apply negb_true_iff in H
  | H : negb _ = false |- _ => apply negb_false_iff in H
  | H : bool_decide _ = true |- _ => apply bool_decide_eq_true in H
  | H : bool_decide _ = false |- _ => apply bool_decide_eq_false in H
  | H : is_Some None |- _ => by destruct H
  | H : ~ is_Some (Some _) |- _ => by (exfalso; apply H; eexists)
  | H : is_Some (Some _) |- _ => clear H
  | H : ~ is_Some _ |- _ => rewrite <- eq_None_not_Some in H
  end;
  simplify_eq.

Ltac embedded :=
  repeat match goal with
  | H : embed_chunks _ _ _ _ = (_, _) |- _ =>
      apply embed_chunks_spec in H as (? & ? & ? & ? & ?)
  end.

(** Every way a run of [initialize_components] recorded in [H] can go, one
    goal per way. *)
Ltac run_init H :=
  unfold initialize_components, test_api_key, CSVLoader_load, OpenAIEmbeddings,
    Chroma_open, Chroma_from_documents, as_retriever, new_ChatOpenAI,
    new_PromptTemplate, RetrievalQA_from_chain_type,
    self, assign, io, ask, lib, st_error, st_warning, st_success,
    os_path_exists, emit, try_except, bind, ret, raise, gets, modify in H;
  cbn beta iota zeta delta [fst snd negb fs trace] in H;
  repeat case_hyp H; simplify_eq; embedded; tidy.

Ltac trace_added :=
  unfold added; simpl;
  repeat match goal with H : trace _ = _ |- _ => rewrite H end;
  rewrite <- ?app_assoc, ?drop_app_length; simpl.

(** The same ways, with the run of [embed_chunks] kept as it is. *)
Ltac run_cases H :=
  unfold initialize_components, test_api_key, CSVLoader_load, OpenAIEmbeddings,
    Chroma_open, Chroma_from_documents, as_retriever, new_ChatOpenAI,
    new_PromptTemplate, RetrievalQA_from_chain_type,
    self, assign, io, ask, lib, st_error, st_warning, st_success,
    os_path_exists, emit, try_except, bind, ret, raise, gets, modify in H;
  cbn beta iota zeta delta [fst snd negb fs trace] in H;
  repeat case_hyp H; simplify_eq; tidy.

Section InitSuccess.

Variable svc : Services.
Variable txt : Prompts.

(** With the embedding service up, every chunk gets its vector. *)
Lemma embed_chunks_total emb ds w :
  embedding_up svc ->
  exists entries w', embed_chunks svc emb ds w = (Ok entries, w').
Proof.
  intros Hup. revert w. induction ds as [|d ds IH]; intros w.
  - by eexists _, _.
  - simpl. unfold bind at 1. unfold embed_chunk, ask, emit, bind, modify, ret.
    simpl.
    destruct (Hup (mkWorld (fs w) (trace w ++ [EmbedChunk d])) emb (page_content d))
      as [v ->].
    destruct (IH (mkWorld (fs w) (trace w ++ [EmbedChunk d]))) as (es & w' & ->).
    by eexists _, _.
Qed.

(** When the key is accepted, the dataset can be read and no library call
    faults, an index found on disk is opened and initialization succeeds,
    having done nothing else that can be seen. *)
Lemma initialize_reuses api_key b w r b' w' u rows entries :
  initialize_components svc txt api_key (b, w) = (r, (b', w')) ->
  completions_create svc (after w (Completion api_key)) api_key = Ok u ->
  fs w !! "Property_data.csv" = Some (CsvFile rows) ->
  fs w !! "chroma_db" = Some (ChromaDir entries) ->
  libraries_sound svc ->
  r = Ok true /\
  vectorstore b' =
    Some (mkVectorStore "chroma_db" (mkEmbeddings "text-embedding-3-large" api_key)
            entries) /\
  w' = after (after w (Completion api_key))
         (StSuccess "Chatbot initialized successfully!").
Proof.
  intros H Hu Hd Hi Hs. unfold after in *.
  run_cases H; try congruence.
  all: try match goal with
           | F : library_fault _ _ _ = Some _ |- _ => by rewrite Hs in F
           end.
  done.
Qed.

(** When moreover no index is on disk and the embedding service is up,
    initialization succeeds as well. *)
Lemma initialize_builds api_key b w r b' w' u rows :
  initialize_components svc txt api_key (b, w) = (r, (b', w')) ->
  completions_create svc (after w (Completion api_key)) api_key = Ok u ->
  fs w !! "Property_data.csv" = Some (CsvFile rows) ->
  fs w !! "chroma_db" = None ->
  libraries_sound svc ->
  embedding_up svc ->
  r = Ok true.
Proof.
  intros H Hu Hd Hi Hs Hup. unfold after in *.
  run_cases H; try congruence.
  all: try match goal with
           | F : library_fault _ _ _ = Some _ |- _ => by rewrite Hs in F
           end.
  all: match goal with
       | F : embed_chunks _ ?e ?d ?x = _ |- _ =>
           destruct (embed_chunks_total e d x Hup) as (? & ? & ?); congruence
       end.
Qed.

End InitSuccess.

(** C3.  When the storage location chroma_db exists as initialization
    starts, no chunk is embedded (no call to the embedding boundary), the disk
    is left as it is, and a successful initialization holds the persisted
    index exactly as it was found, whatever the dataset and its chunks are
    now.  When the location is absent, a successful initialization has
    embedded every chunk of the dataset, once and in order, and has written
    the fresh index to chroma_db.  Initialization does succeed in both cases
    when the key is accepted, the dataset can be read and no library call
    faults: on an index found on disk it ends holding that index, and the key
    test and the success message are all it has done; with no index on disk
    and the embedding service up, it ends holding the index it has embedded
    and written. *)
Theorem index_reuse (svc : Services) (txt : Prompts) (api_key : string)
    (b : RealEstateChatbot) (w : World) r b' w' :
  initialize_components svc txt api_key (b, w) = (r, (b', w')) ->
  let emb := mkEmbeddings "text-embedding-3-large" api_key in
  let tested := after w (Completion api_key) in
  (is_Some (fs w !! "chroma_db") ->
     filter embedding_call (added w w') = [] /\ fs w' = fs w /\
     (r = Ok true -> exists entries,
        fs w !! "chroma_db" = Some (ChromaDir entries) /\
        vectorstore b' = Some (mkVectorStore "chroma_db" emb entries))) /\
  (fs w !! "chroma_db" = None -> r = Ok true ->
     exists rows entries,
       fs w !! "Property_data.csv" = Some (CsvFile rows) /\
       entries.*1 = Chunker.split_documents 1000 100
                      (imap (fun i t => mkDocument t "Property_data.csv" i) rows) /\
       filter embedding_call (added w w') = EmbedChunk <$> entries.*1 /\
       fs w' = <["chroma_db" := ChromaDir entries]> (fs w) /\
       vectorstore b' = Some (mkVectorStore "chroma_db" emb entries)) /\
  (forall u rows entries,
     completions_create svc tested api_key = Ok u ->
     fs w !! "Property_data.csv" = Some (CsvFile rows) ->
     fs w !! "chroma_db" = Some (ChromaDir entries) ->
     libraries_sound svc ->
     r = Ok true /\
     vectorstore b' = Some (mkVectorStore "chroma_db" emb entries) /\
     w' = after tested (StSuccess "Chatbot initialized successfully!")) /\
  (forall u rows,
     completions_create svc tested api_key = Ok u ->
     fs w !! "Property_data.csv" = Some (CsvFile rows) ->
     fs w !! "chroma_db" = None ->
     libraries_sound svc ->
     embedding_up svc ->
     r = Ok true /\
     exists entries,
       entries.*1 = Chunker.split_documents 1000 100
                      (imap (fun i t => mkDocument t "Property_data.csv" i) rows) /\
       filter embedding_call (added w w') = EmbedChunk <$> entries.*1 /\
       fs w' = <["chroma_db" := ChromaDir entries]> (fs w) /\
       vectorstore b' = Some (mkVectorStore "chroma_db" emb entries)).
Proof.
  intros H emb tested. subst emb tested.
  assert (Hbuilt : fs w !! "chroma_db" = None -> r = Ok true ->
            exists rows entries,
              fs w !! "Property_data.csv" = Some (CsvFile rows) /\
              entries.*1 = Chunker.split_documents 1000 100
                             (imap (fun i t => mkDocument t "Property_data.csv" i) rows) /\
              filter embedding_call (added w w') = EmbedChunk <$> entries.*1 /\
              fs w' = <["chroma_db" := ChromaDir entries]> (fs w) /\
              vectorstore b' =
                Some (mkVectorStore "chroma_db"
                        (mkEmbeddings "text-embedding-3-large" api_key) entries)).
  { intros Habs Hr. subst r. run_init H; try congruence.
    destruct (H2 _ eq_refl) as [Hes Hx].
    eexists rows, _. split; [done|]. split; [exact Hes|].
    split; [|by rewrite H].
    trace_added. rewrite filter_cons_False, filter_app by (simpl; tauto).
    rewrite (filter_all _ _ H1).
    rewrite filter_cons_False, filter_nil, app_nil_r by (simpl; tauto).
    by rewrite Hes. }
  split; [|split; [exact Hbuilt|split]].
  - intros Hex. run_init H.
    all: try (destruct Hex; congruence).
    all: (split; [trace_added; try done|split; [done|try done]]).
    intros _. eauto.
  - intros u rows entries Hu Hd Hi Hs.
    exact (initialize_reuses svc txt _ _ _ _ _ _ _ _ _ H Hu Hd Hi Hs).
  - intros u rows Hu Hd Hi Hs Hup.
    pose proof (initialize_builds svc txt _ _ _ _ _ _ _ _ H Hu Hd Hi Hs Hup) as Hr.
    split; [done|].
    destruct (Hbuilt Hi Hr) as (rows' & entries & Hd' & Hes & Hcalls & Hfs & Hv).
    assert (rows' = rows) by congruence. subst rows'. eauto.
Qed.

Lemma added_extends w w' l : trace w' = trace w ++ l -> added w w' = l.
Proof. unfold added. intros ->. by rewrite drop_app_length. Qed.

Section InitFailure.

Variable svc : Services.
Variable txt : Prompts.

(** [initialize_components] handles every exception itself. *)
Lemma initialize_total api_key b w :
  exists ok b' w',
    initialize_components svc txt api_key (b, w) = (Ok ok, (b', w')).
Proof.
  destruct (initialize_components svc txt api_key (b, w)) as [r [b' w']] eqn:H.
  run_init H; eauto.
Qed.

(** A successful initialization sets all four attributes: the retriever is the
    similarity retriever of width 5 over the store, and the chain is built
    from that retriever and the chat model. *)
Lemma initialize_success api_key b w b' w' :
  initialize_components svc txt api_key (b, w) = (Ok true, (b', w')) ->
  exists store,
    let r := mkRetriever store "similarity" 5 in
    let cm := mkChatOpenAI "gpt-4o" 0 api_key in
    b' = {| vectorstore := Some store;
            retriever := Some r;
            chain := Some (mkRetrievalQA cm "stuff" r true
                             (mkPromptTemplate (prompt_template txt)
                                ["context"; "question"]));
            chat_model := Some cm |} /\
    fs w' !! "chroma_db" = Some (ChromaDir (collection store)).
Proof.
  intros H. run_init H.
  - eexists. split; [reflexivity|]. done.
  - eexists. split; [reflexivity|]. simpl. by rewrite lookup_insert_eq.
Qed.



End InitFailure.


(** ** The script *)

Lemma display_spec l w : display l w = (Ok tt, displayed l w).
Proof.
  revert w. induction l as [|m l IH]; intros w.
  - unfold displayed. simpl. rewrite app_nil_r. by destruct w.
  - simpl. unfold bind, emit, modify. simpl. rewrite IH.
    unfold displayed. simpl. by rewrite <- app_assoc.
Qed.

Ltac reduce_main :=
  cbn beta iota zeta delta
    [fst snd negb andb chatbot initialized messages fs trace
     set_chatbot set_initialized set_messages from_option id].

Ltac unfold_main :=
  unfold main, append_message, st_rerun, call, session, update, io,
    st_warning, st_error, emit, bind, ret, raise, gets, modify;
  reduce_main.

Section ScriptFacts.

Variable svc : Services.
Variable txt : Prompts.



End ScriptFacts.

Section Blocked.

Variable svc : Services.
Variable txt : Prompts.




End Blocked.


(** C9.  On an initialized session, a run of the script in which the clear
    button is pressed replaces the chat history by exactly one message, the
    assistant's greeting "Hello! I'm your Real Estate Assistant. How can I
    help you today?", whatever the history held before, and asks for a
    rerun. *)
Theorem clear_history (svc : Services) (txt : Prompts) (inp : Inputs)
    (sess : SessionState) (w : World) (b : RealEstateChatbot) :
  PyStr.truthy (text_input inp) = true ->
  chatbot sess = Some b -> initialized sess = true ->
  submitted (chat_input inp) = None -> button inp = true ->
  exists w',
    main svc txt inp (sess, w) = (Ok RerunRequested, (set_messages [greeting] sess, w')) /\
    messages (set_messages [greeting] sess) = Some [greeting] /\
    role greeting = "assistant" /\
    content greeting = "Hello! I'm your Real Estate Assistant. How can I help you today?".
Proof.
  intros Hkey Hbot Hinit Hq Hclear.
  destruct sess as [cb ini ms]. simpl in *. subst cb ini.
  unfold_main. rewrite Hkey, Hq, Hclear. reduce_main.
  destruct ms as [l|]; reduce_main; rewrite display_spec; reduce_main; eauto.
Qed.

(** C10.  On an initialized session, a run of the script in which a chat
    line is submitted appends exactly two messages to the history: the line
    with role user, then the answer of [get_response] with role assistant.
    The messages already stored come first, unchanged, and the run asks for a
    rerun. *)
Theorem chat_turn_appends (svc : Services) (txt : Prompts) (inp : Inputs)
    (sess : SessionState) (w : World) (b : RealEstateChatbot) (q : string) :
  PyStr.truthy (text_input inp) = true ->
  chatbot sess = Some b -> initialized sess = true ->
  submitted (chat_input inp) = Some q ->
  let history := default [greeting] (messages sess) in
  exists answer docs w',
    get_response svc txt q (b, displayed history w) = (Ok (answer, docs), (b, w')) /\
    main svc txt inp (sess, w) =
      (Ok RerunRequested,
       (set_messages (history ++ [mkMessage "user" q; mkMessage "assistant" answer]) sess,
        after w' Rerun)).
Proof.
  intros Hkey Hbot Hinit Hq history. subst history.
  destruct sess as [cb ini ms]. simpl in *. subst cb ini.
  unfold_main. rewrite Hkey, Hq. reduce_main.
  destruct ms as [l|]; reduce_main; rewrite display_spec; reduce_main.
  - destruct (get_response_total svc txt b (displayed l w) q) as (a & d & w' & Hg).
    rewrite Hg. reduce_main. exists a, d, w'. split; [done|].
    unfold set_messages, after. simpl. by rewrite <- app_assoc.
  - destruct (get_response_total svc txt b (displayed [greeting] w) q) as (a & d & w' & Hg).
    simpl. rewrite Hg. reduce_main. exists a, d, w'. split; [done|]. done.
Qed.

(** ** Examples *)

Example strip_upper_general : PyStr.upper (PyStr.strip " general ") = "GENERAL".
Proof. reflexivity. Qed.

Example strip_upper_other : PyStr.upper (PyStr.strip "General.") <> "GENERAL".
Proof. by vm_compute. Qed.

(** White space outside ASCII is stripped as well. *)
Example strip_upper_padded : PyStr.upper (PyStr.strip padded_general) = "GENERAL".
Proof. vm_compute. reflexivity. Qed.

(** Upper-casing follows Unicode: a character can become two. *)
Example upper_sharp_s : PyStr.upper "straße" = "STRASSE".
Proof. vm_compute. reflexivity. Qed.

Example padded_general_is_conversational :
  get_response services_padded sample_prompts "hi" (sample_chatbot, empty_world) =
  get_general_response services_padded sample_prompts "hi"
    (sample_chatbot, after empty_world (Predict (classification_prompt sample_prompts "hi"))).
Proof. vm_compute. reflexivity. Qed.

Example stale_index_is_reused :
  vectorstore (fst (snd (initialize_components sample_services sample_prompts "sk-test"
                           (new_chatbot, indexed_world)))) = Some sample_store.
Proof. vm_compute. reflexivity. Qed.

Lemma chunker_count_and_bound_witness :
  length (Chunker.split_document 1000 100 sample_doc) = 1.
Proof.
  apply (proj1 (chunker_count_and_bound sample_doc)). simpl. lia.
Defined.

Lemma retriever_top_k_witness :
  Retriever.search first_component (mkRetriever sample_store "similarity" 5) [1%Z]
    ≡ₚ collection sample_store.
Proof.
  apply (retriever_top_k first_component sample_store [1%Z]). simpl. lia.
Defined.

Lemma intent_routing_witness :
  get_response (services_down "timeout") sample_prompts "hi" (sample_chatbot, empty_world) =
  get_property_response (services_down "timeout") "hi"
    (sample_chatbot, after empty_world (Predict (classification_prompt sample_prompts "hi"))).
Proof.
  apply (proj1 (intent_routing (services_down "timeout") sample_prompts
                 sample_chatbot empty_world "hi") "timeout").
  reflexivity.
Defined.

Lemma index_reuse_witness :
  fst (initialize_components sample_services sample_prompts "sk-test"
         (new_chatbot, indexed_world)) = Ok true /\
  vectorstore (fst (snd (initialize_components sample_services sample_prompts "sk-test"
                           (new_chatbot, indexed_world)))) = Some sample_store /\
  snd (snd (initialize_components sample_services sample_prompts "sk-test"
              (new_chatbot, indexed_world))) =
    after (after indexed_world (Completion "sk-test"))
      (StSuccess "Chatbot initialized successfully!").
Proof.
  refine (proj1 (proj2 (proj2
            (index_reuse sample_services sample_prompts "sk-test"
               new_chatbot indexed_world _ _ _ _)))
            tt [page_content sample_doc] [stale_entry] _ _ _ _).
  - vm_compute. reflexivity.
  - reflexivity.
  - vm_compute. reflexivity.
  - vm_compute. reflexivity.
  - intros w c. reflexivity.
Defined.

(** C4 as stated does not hold: the apology of the grounded variant is not
    one fixed string, it carries the text of the failure. *)
Lemma apology_is_not_fixed :
  ~ exists apology : string,
      forall (svc : Services) (b : RealEstateChatbot) (w : World) (q : string) e s,
        chain_call svc q (b, w) = (Raise e, s) ->
        get_property_response svc q (b, w) = (Ok (apology, []), s).
Proof.
  intros [apology H].
  pose proof (H (services_down "timeout") sample_chatbot empty_world "hi"
                "timeout" _ eq_refl) as H1.
  pose proof (H (services_down "quota") sample_chatbot empty_world "hi"
                "quota" _ eq_refl) as H2.
  vm_compute in H1, H2. congruence.
Qed.

Lemma generation_failure_answered_witness :
  get_property_response (services_down "timeout") "hi" (sample_chatbot, empty_world) =
    (Ok (property_apology +:+ "timeout", []),
     (sample_chatbot, after empty_world (ChainCall "hi"))).
Proof.
  exact (proj1 (proj2 (generation_failure_answered (services_down "timeout")
                         sample_prompts sample_chatbot empty_world "hi"))
           "timeout" (sample_chatbot, after empty_world (ChainCall "hi")) eq_refl).
Defined.







Lemma one_intent_one_response_witness :
  exists intent answer docs w',
    classify_query_intent sample_services sample_prompts "hi" (sample_chatbot, empty_world) =
      (Ok intent,
       (sample_chatbot,
        after empty_world (Predict (classification_prompt sample_prompts "hi")))) /\
    get_response sample_services sample_prompts "hi" (sample_chatbot, empty_world) =
      (Ok (answer, docs), (sample_chatbot, w')) /\
    (intent = "GENERAL" ->
       docs = [] /\
       added empty_world w' =
         [Predict (classification_prompt sample_prompts "hi");
          Predict (general_prompt sample_prompts "hi")]) /\
    (intent <> "GENERAL" ->
       added empty_world w' =
         [Predict (classification_prompt sample_prompts "hi"); ChainCall "hi"] /\
       forall out a,
         run_chain sample_services
           (after (after empty_world (Predict (classification_prompt sample_prompts "hi")))
              (ChainCall "hi")) sample_chain "hi" = Ok out ->
         out_result out = Some a ->
         answer = a /\ docs = default [] (out_source_documents out)).
Proof.
  apply (one_intent_one_response sample_services sample_prompts sample_chatbot
           empty_world "hi" sample_model sample_chain); reflexivity.
Defined.

Lemma clear_history_witness :
  exists w',
    main sample_services sample_prompts (mkInputs "sk-test" None true)
      (sample_session, empty_world) =
      (Ok RerunRequested, (set_messages [greeting] sample_session, w')) /\
    messages (set_messages [greeting] sample_session) = Some [greeting] /\
    role greeting = "assistant" /\
    content greeting = "Hello! I'm your Real Estate Assistant. How can I help you today?".
Proof.
  apply (clear_history sample_services sample_prompts (mkInputs "sk-test" None true)
           sample_session empty_world sample_chatbot); reflexivity.
Defined.

Lemma chat_turn_appends_witness :
  exists answer docs w',
    get_response sample_services sample_prompts "hi"
      (sample_chatbot, displayed (default [greeting] (messages sample_session)) empty_world) =
      (Ok (answer, docs), (sample_chatbot, w')) /\
    main sample_services sample_prompts (mkInputs "sk-test" (Some "hi") false)
      (sample_session, empty_world) =
      (Ok RerunRequested,
       (set_messages
          (default [greeting] (messages sample_session) ++
             [mkMessage "user" "hi"; mkMessage "assistant" answer]) sample_session,
        after w' Rerun)).
Proof.
  apply (chat_turn_appends sample_services sample_prompts
           (mkInputs "sk-test" (Some "hi") false)
           sample_session empty_world sample_chatbot "hi"); reflexivity.
Defined.

Example chat_turn_run :
  messages (fst (snd (main sample_services sample_prompts
                        (mkInputs "sk-test" (Some "hi") false)
                        (sample_session, empty_world)))) =
  Some [greeting; mkMessage "user" "hello"; mkMessage "assistant" "Hi!";
        mkMessage "user" "hi"; mkMessage "assistant" "general"].
Proof. vm_compute. reflexivity. Qed.

(** * Further properties of the code *)

(** ** Normalization of the classifier's answer *)

Lemma chars_rev_app s acc :
  chars_of (String.rev_app s acc) = reverse (chars_of s) ++ chars_of acc.
Proof.
  revert acc. induction s as [|c s IH]; intros acc; simpl; [done|].
  rewrite IH. simpl. rewrite reverse_cons, <- app_assoc. done.
Qed.

Lemma chars_rev s : chars_of (String.rev s) = reverse (chars_of s).
Proof. unfold String.rev. rewrite chars_rev_app. simpl. by rewrite app_nil_r. Qed.


Lemma chars_length s : length (chars_of s) = String.length s.
Proof. induction s as [|c s IH]; simpl; [done|]. by rewrite IH. Qed.

(** Induction along the walk of [lstrip_with]: it stops on a string that does
    not start with a white-space byte, or drops one, two or three bytes. *)
Lemma lstrip_with_ind sp2 sp3 (P : string -> string -> Prop) :
  (forall s, (forall a s1, s = String a s1 -> PyStr.space1 a = false) -> P s s) ->
  (forall a s1 r, P s1 r -> P (String a s1) r) ->
  (forall a b s2 r, P s2 r -> P (String a (String b s2)) r) ->
  (forall a b c s3 r, P s3 r -> P (String a (String b (String c s3))) r) ->
  forall s, P s (PyStr.lstrip_with sp2 sp3 s).
Proof.
  intros Hstop H1 H2 H3 s.
  remember (String.length s) as n eqn:Hn.
  revert s Hn. induction (lt_wf n) as [n _ IH]. intros s ->.
  destruct s as [|a s1]; simpl.
  { apply Hstop. by intros. }
  destruct (PyStr.space1 a) eqn:Ha.
  { apply H1. eapply IH; [|reflexivity]. simpl. lia. }
  assert (Hs : P (String a s1) (String a s1)).
  { apply Hstop. by intros ?? [= <- <-]. }
  destruct s1 as [|b s2]; [done|].
  destruct (sp2 a b).
  { apply H2. eapply IH; [|reflexivity]. simpl. lia. }
  destruct s2 as [|c s3]; [done|].
  destruct (sp3 a b c); [|done].
  apply H3. eapply IH; [|reflexivity]. simpl. lia.
Qed.

Lemma lstrip_with_head sp2 sp3 s c :
  head (chars_of (PyStr.lstrip_with sp2 sp3 s)) = Some c -> PyStr.space1 c = false.
Proof.
  revert c. apply (lstrip_with_ind sp2 sp3
    (fun _ r => forall c, head (chars_of r) = Some c -> PyStr.space1 c = false));
    try done.
  intros [|a s1] Hs c; simpl; [done|]. intros [= <-]. by eapply Hs.
Qed.

(** What is left after [lstrip_with] is an end of the string. *)
Lemma lstrip_with_suffix sp2 sp3 s :
  exists pre, chars_of s = pre ++ chars_of (PyStr.lstrip_with sp2 sp3 s).
Proof.
  apply (lstrip_with_ind sp2 sp3 (fun s r => exists pre, chars_of s = pre ++ chars_of r)).
  - intros s0 _. by exists [].
  - intros a s1 r [pre Hpre]. exists (a :: pre). simpl. by rewrite Hpre.
  - intros a b s2 r [pre Hpre]. exists (a :: b :: pre). simpl. by rewrite Hpre.
  - intros a b c s3 r [pre Hpre]. exists (a :: b :: c :: pre). simpl. by rewrite Hpre.
Qed.


Lemma strip_trimmed s : trimmed (PyStr.strip s).
Proof.
  unfold trimmed, PyStr.strip, PyStr.rstrip. split; intros c Hc.
  - rewrite chars_rev in Hc.
    destruct (lstrip_with_suffix (fun b a => PyStr.space2 a b)
                (fun c b a => PyStr.space3 a b c) (String.rev (PyStr.lstrip s)))
      as [pre Hpre].
    rewrite chars_rev in Hpre.
    apply (f_equal reverse) in Hpre.
    rewrite reverse_involutive, reverse_app in Hpre.
    destruct (reverse (chars_of (PyStr.lstrip_with _ _ (String.rev (PyStr.lstrip s)))))
      as [|x l] eqn:Hl; [done|].
    simpl in Hc. injection Hc as ->.
    apply (lstrip_with_head PyStr.space2 PyStr.space3 s). fold (PyStr.lstrip s).
    by rewrite Hpre.
  - rewrite chars_rev, last_reverse in Hc. by apply lstrip_with_head in Hc.
Qed.

Lemma lstrip_with_idem sp2 sp3 s :
  PyStr.lstrip_with sp2 sp3 (PyStr.lstrip_with sp2 sp3 s) = PyStr.lstrip_with sp2 sp3 s.
Proof.
  remember (String.length s) as n eqn:Hn.
  revert s Hn. induction (lt_wf n) as [n _ IH]. intros s ->.
  destruct s as [|a s1]; [done|]. simpl.
  destruct (PyStr.space1 a) eqn:Ha.
  { eapply IH; [|reflexivity]. simpl. lia. }
  destruct s1 as [|b s2]. { simpl. by rewrite Ha. }
  destruct (sp2 a b) eqn:Hb.
  { eapply IH; [|reflexivity]. simpl. lia. }
  destruct s2 as [|c s3]. { simpl. by rewrite Ha, Hb. }
  destruct (sp3 a b c) eqn:Hc.
  { eapply IH; [|reflexivity]. simpl; lia. }
  simpl. by rewrite Ha, Hb, Hc.
Qed.

Lemma lstrip_with_length sp2 sp3 s :
  String.length (PyStr.lstrip_with sp2 sp3 s) <= String.length s.
Proof.
  destruct (lstrip_with_suffix sp2 sp3 s) as [pre H].
  apply (f_equal length) in H. rewrite length_app, !chars_length in H. lia.
Qed.

(** A string that [lstrip_with] leaves as it is has only such beginnings. *)
Lemma lstrip_with_prefix sp2 sp3 s p rest :
  PyStr.lstrip_with sp2 sp3 s = s ->
  chars_of s = chars_of p ++ rest ->
  PyStr.lstrip_with sp2 sp3 p = p.
Proof.
  intros Hs Hp.
  destruct p as [|a p1]; [done|].
  destruct s as [|a' s1]; [done|]. simpl in Hp. injection Hp as -> Hp.
  simpl in Hs |- *.
  destruct (PyStr.space1 a) eqn:Ha.
  { pose proof (lstrip_with_length sp2 sp3 s1) as Hl. rewrite Hs in Hl.
    simpl in Hl. lia. }
  destruct p1 as [|b p2]; [done|].
  destruct s1 as [|b' s2]; [done|]. simpl in Hp. injection Hp as -> Hp.
  destruct (sp2 a b) eqn:Hb.
  { pose proof (lstrip_with_length sp2 sp3 s2) as Hl. rewrite Hs in Hl.
    simpl in Hl. lia. }
  destruct p2 as [|c p3]; [done|].
  destruct s2 as [|c' s3]; [done|]. simpl in Hp. injection Hp as -> Hp.
  destruct (sp3 a b c) eqn:Hc; [|done].
  pose proof (lstrip_with_length sp2 sp3 s3) as Hl. rewrite Hs in Hl.
  simpl in Hl. lia.
Qed.

Lemma chars_inj s t : chars_of s = chars_of t -> s = t.
Proof.
  intros H. apply (f_equal String.string_of_list_ascii) in H.
  unfold chars_of in H. by rewrite !String.string_of_list_ascii_of_string in H.
Qed.

Lemma string_rev_involutive s : String.rev (String.rev s) = s.
Proof. apply chars_inj. by rewrite !chars_rev, reverse_involutive. Qed.

(** Stripping a stripped string changes nothing: no white-space character,
    of one byte or more, is left at either end. *)
Lemma strip_idem s : PyStr.strip (PyStr.strip s) = PyStr.strip s.
Proof.
  unfold PyStr.strip, PyStr.rstrip.
  set (t := PyStr.lstrip s).
  set (sp2 := fun b a => PyStr.space2 a b).
  set (sp3 := fun c b a => PyStr.space3 a b c).
  set (L := PyStr.lstrip_with sp2 sp3 (String.rev t)).
  assert (HL : PyStr.lstrip (String.rev L) = String.rev L).
  { destruct (lstrip_with_suffix sp2 sp3 (String.rev t)) as [pre Hpre].
    fold L in Hpre. rewrite chars_rev in Hpre.
    apply (f_equal reverse) in Hpre.
    rewrite reverse_involutive, reverse_app, <- chars_rev in Hpre.
    apply (lstrip_with_prefix _ _ t _ (reverse pre)); [|exact Hpre].
    apply lstrip_with_idem. }
  rewrite HL, string_rev_involutive. f_equal. apply lstrip_with_idem.
Qed.















(** ** Answering a query *)

Section AnswerFacts.

Variable svc : Services.
Variable txt : Prompts.



(** X3.  The answer of the conversational variant is either the fixed
    greeting, when the call failed, or the model's text with the white space
    at both ends removed: no white-space byte is left at either end, and
    stripping the answer again changes nothing.  The list of supporting
    chunks is empty either way. *)
Theorem general_answer_trimmed (b : RealEstateChatbot) (w : World) (q : string)
    (answer : string) (docs : list Document) (s : RealEstateChatbot * World) :
  get_general_response svc txt q (b, w) = (Ok (answer, docs), s) ->
  docs = [] /\
  ((exists e s1, chat_model_predict svc (general_prompt txt q) (b, w) = (Raise e, s1) /\
      answer = general_fallback) \/
   (exists text s1, chat_model_predict svc (general_prompt txt q) (b, w) = (Ok text, s1) /\
      answer = PyStr.strip text /\ trimmed answer /\ PyStr.strip answer = answer)).
Proof.
  unfold get_general_response, try_except, bind, ret.
  destruct (chat_model_predict svc (general_prompt txt q) (b, w))
    as [[text|e] s1]; intros [= <- <- <-]; (split; [done|]).
  - right. exists text, s1. split; [done|]. split; [done|].
    split; [apply strip_trimmed|apply strip_idem].
  - left. by exists e, s1.
Qed.

(** X4.  When the dictionary the chain returns has no key 'result', the
    grounded variant answers with the apology followed by the text of the
    KeyError; when only the key 'source_documents' is missing, it returns the
    answer with an empty list of supporting chunks. *)
Theorem chain_output_missing_keys (b : RealEstateChatbot) (w : World) (q : string)
    (out : ChainOutput) (s : RealEstateChatbot * World) :
  chain_call svc q (b, w) = (Ok out, s) ->
  (out_result out = None ->
     get_property_response svc q (b, w) = (Ok (property_apology +:+ "'result'", []), s)) /\
  (forall a, out_result out = Some a -> out_source_documents out = None ->
     get_property_response svc q (b, w) = (Ok (a, []), s)) /\
  (forall a ds, out_result out = Some a -> out_source_documents out = Some ds ->
     get_property_response svc q (b, w) = (Ok (a, ds), s)).
Proof.
  intros Hc. unfold get_property_response, try_except, bind, ret, raise.
  rewrite Hc. split; [|split].
  - by intros ->.
  - by intros a -> ->.
  - by intros a ds -> ->.
Qed.

(** X5.  On a chatbot that was never initialized (no chat model, no chain)
    [get_response] calls no service and shows nothing: the classification
    fails on the missing model, the query falls to the property path, and the
    answer is the apology with the text of the error raised by calling the
    missing chain. *)
Theorem response_without_initialization (b : RealEstateChatbot) (w : World) (q : string) :
  chat_model b = None -> chain b = None ->
  get_response svc txt q (b, w) =
    (Ok (property_apology +:+ "'NoneType' object is not callable", []), (b, w)).
Proof.
  intros Hm Hc. destruct b as [vs rt ch cm]. simpl in *. subst.
  reflexivity.
Qed.

(** [get_response] leaves the chatbot and the disk alone and adds at most two
    events, each a call of the answering pipeline. *)
Lemma get_response_frame_aux b w q r b' w' :
  get_response svc txt q (b, w) = (r, (b', w')) ->
  b' = b /\ fs w' = fs w /\
  exists evs, trace w' = trace w ++ evs /\
    Forall pipeline_call evs /\ length evs <= 2.
Proof.
  intros H. run.
  all: split; [done|]; split; [done|].
  all: simpl; rewrite <- ?app_assoc; simpl.
  all: first
    [ eexists; split; [reflexivity|]
    | exists []; split; [by rewrite app_nil_r|] ].
  all: split; [repeat (constructor; [done|]); constructor | simpl; lia].
Qed.

(** X6.  Answering a query never changes the chatbot or the disk, shows no
    message, and makes at most two service calls, both calls of the answering
    pipeline: no key test and no embedding of chunks. *)
Theorem get_response_frame (b : RealEstateChatbot) (w : World) (q : string)
    (r : result (string * list Document)) (b' : RealEstateChatbot) (w' : World) :
  get_response svc txt q (b, w) = (r, (b', w')) ->
  b' = b /\ fs w' = fs w /\
  Forall pipeline_call (added w w') /\ length (added w w') <= 2.
Proof.
  intros H. apply get_response_frame_aux in H as (-> & Hfs & evs & Htr & Hall & Hlen).
  by rewrite (added_extends _ _ _ Htr).
Qed.

End AnswerFacts.

(** ** Initialization *)

Section InitMore.

Variable svc : Services.
Variable txt : Prompts.

(** X7.  [initialize_components] reports the first precondition that fails
    and stops there.  With a key that the completion call rejects it shows
    only the invalid-key message, whether or not the dataset exists; with a
    valid key and no dataset file it shows only the file-not-found message.
    In both cases it returns False, the generic initialization error is not
    shown on top, and the chatbot and the disk are as before. *)
Theorem initialization_preconditions (api_key : string) (b : RealEstateChatbot) (w : World) :
  let tested := after w (Completion api_key) in
  (forall e, completions_create svc tested api_key = Raise e ->
     initialize_components svc txt api_key (b, w) =
       (Ok false, (b, after tested (StError ("Invalid API Key: " +:+ e))))) /\
  (forall u, completions_create svc tested api_key = Ok u ->
     fs w !! "Property_data.csv" = None ->
     initialize_components svc txt api_key (b, w) =
       (Ok false, (b, after tested (StError "Property_data.csv file not found!")))).
Proof.
  intros tested. subst tested. unfold after. split.
  - intros e He.
    unfold initialize_components, test_api_key, io, ask, st_error, emit,
      try_except, bind, ret, modify.
    cbn beta iota zeta delta [fst snd fs trace]. rewrite He. reflexivity.
  - intros u Hu Hmiss.
    unfold initialize_components, test_api_key, os_path_exists, io, ask, st_error,
      emit, try_except, bind, ret, modify, gets.
    cbn beta iota zeta delta [fst snd fs trace]. rewrite Hu.
    cbn beta iota zeta delta [fst snd fs trace negb]. rewrite Hmiss.
    rewrite bool_decide_false by (by intros [? ?]). reflexivity.
Qed.

(** X8.  A successful initialization overwrites all four attributes, whatever
    they held: the store, the similarity retriever of width 5 over it, the
    chat model gpt-4o at temperature 0 with the key just entered, and the
    stuff chain over that model and retriever, returning its source
    documents.  It shows no error, and the success message is the last thing
    it does. *)
Theorem initialization_success (api_key : string) (b : RealEstateChatbot) (w : World)
    (b' : RealEstateChatbot) (w' : World) :
  initialize_components svc txt api_key (b, w) = (Ok true, (b', w')) ->
  (exists store,
     let r := mkRetriever store "similarity" 5 in
     let cm := mkChatOpenAI "gpt-4o" 0 api_key in
     persist_directory store = "chroma_db" /\
     embedding_function store = mkEmbeddings "text-embedding-3-large" api_key /\
     b' = {| vectorstore := Some store;
             retriever := Some r;
             chain := Some (mkRetrievalQA cm "stuff" r true
                              (mkPromptTemplate (prompt_template txt)
                                 ["context"; "question"]));
             chat_model := Some cm |}) /\
  last (trace w') = Some (StSuccess "Chatbot initialized successfully!") /\
  filter error_shown (added w w') = [].
Proof.
  intros H. run_init H.
  - split; [eexists (mkVectorStore _ _ _); split; [|split]; reflexivity|].
    split; [by rewrite last_snoc|]. trace_added. done.
  - split; [eexists (mkVectorStore _ _ _); split; [|split]; reflexivity|].
    split; [by rewrite last_snoc|]. trace_added.
    rewrite filter_cons_False, filter_app by (simpl; tauto).
    rewrite (filter_none _ _ (embedding_not_error _ H1)).
    by rewrite filter_cons_False by (simpl; tauto).
Qed.

(** A successful initialization that finds an index on disk holds its
    entries, embeds nothing and leaves the disk as it is. *)
Lemma initialize_on_index api_key b w b' w' entries :
  initialize_components svc txt api_key (b, w) = (Ok true, (b', w')) ->
  fs w !! "chroma_db" = Some (ChromaDir entries) ->
  (collection <$> vectorstore b') = Some entries /\
  filter embedding_call (added w w') = [] /\
  fs w' = fs w.
Proof.
  intros H Hidx. run_init H; try congruence.
  split; [done|]. split; [|done]. trace_added. done.
Qed.

(** X9.  Building then reusing.  When an initialization that found no index
    has succeeded, a later successful initialization on the disk it left,
    with whatever key and on whatever chatbot, serves the very entries the
    first one wrote, embeds no chunk, and leaves the disk as it is. *)
Theorem build_then_reuse (key1 key2 : string) (b1 b2 : RealEstateChatbot)
    (w1 w2 : World) (b1' b2' : RealEstateChatbot) (w1' w2' : World) :
  fs w1 !! "chroma_db" = None ->
  initialize_components svc txt key1 (b1, w1) = (Ok true, (b1', w1')) ->
  fs w2 = fs w1' ->
  initialize_components svc txt key2 (b2, w2) = (Ok true, (b2', w2')) ->
  (collection <$> vectorstore b2') = (collection <$> vectorstore b1') /\
  filter embedding_call (added w2 w2') = [] /\
  fs w2' = fs w1'.
Proof.
  intros Hnone H1 Hfs H2.
  destruct (initialize_success svc txt _ _ _ _ _ H1) as (store & Hb1 & Hdisk).
  simpl in Hb1. rewrite <- Hfs in Hdisk.
  destruct (initialize_on_index _ _ _ _ _ _ H2 Hdisk) as (Hc & Hemb & Hfs').
  rewrite Hc, Hb1. simpl. split; [done|]. split; [done|]. congruence.
Qed.

End InitMore.

(** ** Runs of the script *)

Lemma shown_not_setup l : Forall (fun ev => ~ setup_call ev) (shown <$> l).
Proof.
  apply Forall_fmap, Forall_true. intros m. simpl. unfold shown.
  destruct (bool_decide (role m = "user")); simpl; tauto.
Qed.

Lemma pipeline_not_setup l :
  Forall pipeline_call l -> Forall (fun ev => ~ setup_call ev) l.
Proof. intros H. eapply Forall_impl; [exact H|]. intros e He Hn. by destruct e. Qed.

Lemma history_of_snoc turns q a :
  history_of turns ++ [mkMessage "user" q; mkMessage "assistant" a] =
  history_of (turns ++ [(q, a)]).
Proof.
  unfold history_of. simpl. f_equal. by rewrite bind_app.
Qed.

Section RunFacts.

Variable svc : Services.
Variable txt : Prompts.

(** A run with the key field empty. *)
Lemma main_without_key (inp : Inputs) (sess : SessionState) (w : World) :
  PyStr.truthy (text_input inp) = false ->
  exists sess',
    main svc txt inp (sess, w) =
      (Ok Finished,
       (sess', after w (StWarning
          "Please enter your OpenAI API Key in the sidebar to start chatting."))) /\
    messages sess' = messages sess /\
    chatbot sess' = Some (default new_chatbot (chatbot sess)) /\
    (is_Some (chatbot sess) -> sess' = sess).
Proof.
  intros Hkey. destruct sess as [[b|] ini ms].
  - unfold_main. rewrite Hkey. reduce_main. eexists. split; [reflexivity|]. done.
  - unfold_main. rewrite Hkey. reduce_main. eexists. split; [reflexivity|].
    split; [done|]. split; [done|]. by intros [? ?].
Qed.

(** X10.  With the key field empty, a run does nothing but show the warning:
    no service is called, no chat line is processed and the history is left
    as it is, also on a session that had been initialized before. *)
Theorem no_key_no_chat (inp : Inputs) (sess : SessionState) (w : World) :
  PyStr.truthy (text_input inp) = false ->
  exists sess',
    main svc txt inp (sess, w) =
      (Ok Finished,
       (sess', after w (StWarning
          "Please enter your OpenAI API Key in the sidebar to start chatting."))) /\
    messages sess' = messages sess /\
    chatbot sess' = Some (default new_chatbot (chatbot sess)) /\
    (is_Some (chatbot sess) -> sess' = sess).
Proof. apply main_without_key. Qed.

(** X11.  When a chat line is submitted, the clear button plays no role in
    the run: the script behaves the same whether or not it is pressed. *)
Theorem chat_line_beats_clear (api_key q : string) (line : option string)
    (s : SessionState * World) :
  submitted line = Some q ->
  main svc txt (mkInputs api_key line true) s =
  main svc txt (mkInputs api_key line false) s.
Proof.
  intros Hq. unfold main.
  cbn beta iota zeta delta [text_input chat_input button]. by rewrite Hq.
Qed.

(** X12.  On an initialized session, a run with a key and neither a chat line
    nor a press of the clear button calls no service: it displays the history
    in order, each message under the user's name when its role is user and
    under the assistant's otherwise, and ends.  The history is unchanged, or
    created with the greeting when the session had none. *)
Theorem idle_run (inp : Inputs) (sess : SessionState) (w : World)
    (b : RealEstateChatbot) :
  PyStr.truthy (text_input inp) = true ->
  chatbot sess = Some b -> initialized sess = true ->
  submitted (chat_input inp) = None -> button inp = false ->
  let history := default [greeting] (messages sess) in
  main svc txt inp (sess, w) =
    (Ok Finished, (set_messages history sess, displayed history w)) /\
  added w (displayed history w) = shown <$> history.
Proof.
  intros Hkey Hbot Hinit Hq Hclear history. subst history.
  destruct sess as [cb ini ms]. simpl in *. subst cb ini.
  split; [|apply added_app].
  unfold_main. rewrite Hkey, Hq, Hclear. reduce_main.
  destruct ms as [l|]; reduce_main; rewrite display_spec; reduce_main; done.
Qed.

(** A run on an initialized session, whatever the inputs. *)
Lemma main_initialized inp sess w b :
  chatbot sess = Some b -> initialized sess = true ->
  exists o sess' evs,
    main svc txt inp (sess, w) = (Ok o, (sess', mkWorld (fs w) (trace w ++ evs))) /\
    chatbot sess' = Some b /\ initialized sess' = true /\
    Forall (fun ev => ~ setup_call ev) evs /\
    (well_formed (messages sess) -> well_formed (messages sess')).
Proof.
  intros Hbot Hinit. destruct sess as [cb ini ms]. simpl in *. subst cb ini.
  destruct (PyStr.truthy (text_input inp)) eqn:Hkey.
  2:{ unfold_main. rewrite Hkey. reduce_main.
      eexists _, _, [_]. split; [reflexivity|]. repeat split; [|done].
      repeat constructor. by intros []. }
  set (history := default [greeting] ms).
  assert (Hwf : well_formed ms -> exists turns, history = history_of turns).
  { subst history. destruct ms as [l|]; simpl; [done|]. intros _. by exists []. }
  destruct (submitted (chat_input inp)) as [q|] eqn:Hq.
  - destruct (get_response svc txt q (b, displayed history w)) as [r [b' w']] eqn:Hg.
    destruct (get_response_total svc txt b (displayed history w) q)
      as (a & d & w2 & Hok).
    rewrite Hg in Hok. injection Hok as -> -> ->.
    destruct (get_response_frame_aux svc txt _ _ _ _ _ _ Hg)
      as (_ & Hfs & evs & Htr & Hall & _).
    exists RerunRequested.
    exists (mkSession (Some b) true
              (Some (history ++ [mkMessage "user" q; mkMessage "assistant" a]))).
    exists ((shown <$> history) ++ evs ++ [Rerun]).
    split.
    + unfold_main. rewrite Hkey, Hq. reduce_main. subst history.
      destruct ms as [l|]; reduce_main; rewrite display_spec; reduce_main;
        simpl in Hg |- *; rewrite Hg; reduce_main;
        rewrite Hfs, Htr; simpl; by rewrite <- !app_assoc.
    + repeat split.
      * rewrite !Forall_app. split; [apply shown_not_setup|].
        split; [by apply pipeline_not_setup|]. repeat constructor. by intros [].
      * intros Hms. destruct (Hwf Hms) as [turns ->]. simpl.
        exists (turns ++ [(q, a)]). apply history_of_snoc.
  - destruct (button inp) eqn:Hclear.
    + exists RerunRequested, (mkSession (Some b) true (Some [greeting])).
      exists ((shown <$> history) ++ [Rerun]). split.
      * unfold_main. rewrite Hkey, Hq, Hclear. reduce_main. subst history.
        destruct ms as [l|]; reduce_main; rewrite display_spec; reduce_main;
          simpl; by rewrite <- ?app_assoc.
      * repeat split.
        -- rewrite Forall_app. split; [apply shown_not_setup|].
           repeat constructor. by intros [].
        -- intros _. by exists [].
    + exists Finished, (mkSession (Some b) true (Some history)).
      exists (shown <$> history). split.
      * unfold_main. rewrite Hkey, Hq, Hclear. reduce_main. subst history.
        destruct ms as [l|]; reduce_main; rewrite display_spec; reduce_main; done.
      * repeat split; [apply shown_not_setup|]. intros Hms. by apply Hwf.
Qed.

(** A run that attempts the initialization. *)
Lemma main_initializing (inp : Inputs) (sess : SessionState) (w : World)
    (ok : bool) (b' : RealEstateChatbot) (w1 : World) :
  PyStr.truthy (text_input inp) = true ->
  chatbot sess = None \/ initialized sess = false ->
  initialize_components svc txt (text_input inp)
    (default new_chatbot (chatbot sess), w) = (Ok ok, (b', w1)) ->
  main svc txt inp (sess, w) =
    if ok then main svc txt inp (mkSession (Some b') true (messages sess), w1)
    else (Ok Finished,
          (mkSession (Some b') false (messages sess),
           after w1 (StError
             "Chatbot not initialized. Please check your API key and dataset."))).
Proof.
  intros Hkey Hnot Hrun. destruct sess as [cb ini ms]. simpl in *.
  assert (Hcase : cb = None \/ (exists b, cb = Some b /\ ini = false)).
  { destruct cb as [b|]; [right|by left]. destruct Hnot as [? | ->]; [done|]. eauto. }
  destruct Hcase as [->|(b & -> & ->)]; simpl in Hrun.
  - unfold_main. rewrite Hkey. reduce_main. rewrite Hrun. reduce_main.
    destruct ok; reduce_main; reflexivity.
  - unfold_main. rewrite Hkey. reduce_main. rewrite Hrun. reduce_main.
    destruct ok; reduce_main; reflexivity.
Qed.

(** X13.  A run on a session that is not yet initialized, with a key entered,
    attempts the initialization on the stored chatbot (a new one when the
    session had none).  When it succeeds the session is marked initialized and
    the run goes on exactly as a run on the initialized session, so a chat
    line submitted in that same run is answered.  When it fails the run ends
    on the setup error, the session stays uninitialized and keeps its
    history; the chatbot keeps whatever the attempt assigned. *)
Theorem initialization_in_run (inp : Inputs) (sess : SessionState) (w : World)
    (ok : bool) (b' : RealEstateChatbot) (w1 : World) :
  PyStr.truthy (text_input inp) = true ->
  chatbot sess = None \/ initialized sess = false ->
  initialize_components svc txt (text_input inp)
    (default new_chatbot (chatbot sess), w) = (Ok ok, (b', w1)) ->
  main svc txt inp (sess, w) =
    if ok then main svc txt inp (mkSession (Some b') true (messages sess), w1)
    else (Ok Finished,
          (mkSession (Some b') false (messages sess),
           after w1 (StError
             "Chatbot not initialized. Please check your API key and dataset."))).
Proof. apply main_initializing. Qed.

(** Every run returns, and keeps the shape of the history. *)
Lemma main_total inp sess w :
  exists o sess' w',
    main svc txt inp (sess, w) = (Ok o, (sess', w')) /\
    (well_formed (messages sess) -> well_formed (messages sess')).
Proof.
  destruct (PyStr.truthy (text_input inp)) eqn:Hkey.
  2:{ destruct (main_without_key inp sess w Hkey) as (sess' & Hrun & Hms & _).
      eexists _, _, _. split; [exact Hrun|]. by rewrite Hms. }
  destruct sess as [cb ini ms].
  assert (Hcase : (exists b, cb = Some b /\ ini = true) \/
                  (cb = None \/ ini = false)).
  { destruct cb as [b|]; [|by right; left]. destruct ini; [left; eauto|by right; right]. }
  destruct Hcase as [(b & -> & ->)|Hnot].
  - destruct (main_initialized inp (mkSession (Some b) true ms) w b eq_refl eq_refl)
      as (o & sess' & evs & Hrun & _ & _ & _ & Hwf).
    eauto 6.
  - destruct (initialize_total svc txt (text_input inp) (default new_chatbot cb) w)
      as (ok & b' & w1 & Hinit).
    rewrite (main_initializing inp (mkSession cb ini ms) w ok b' w1 Hkey Hnot Hinit).
    destruct ok.
    + destruct (main_initialized inp (mkSession (Some b') true ms) w1 b' eq_refl eq_refl)
        as (o & sess' & evs & Hrun & _ & _ & _ & Hwf).
      eauto 6.
    + eexists _, _, _. split; [reflexivity|]. done.
Qed.

(** X14.  No run of the script ends on an uncaught exception, whatever the
    session holds, whatever the user entered and whatever the services and
    the libraries do: every failure is turned into a message or an answer. *)
Theorem main_never_raises (inp : Inputs) (s : SessionState * World) :
  exists o s', main svc txt inp s = (Ok o, s').
Proof.
  destruct s as [sess w].
  destruct (main_total inp sess w) as (o & sess' & w' & H & _). eauto.
Qed.

(** X15.  The history keeps its shape over a whole session: in every state
    reached from a session whose history is absent, or is the greeting
    followed by pairs of a user line and an assistant answer, the history is
    absent or has that same shape; in particular it starts with the greeting
    and is never empty. *)
Theorem history_shape_invariant (sess : SessionState) (w : World)
    (s : SessionState * World) :
  well_formed (messages sess) ->
  rtc (step svc txt any_disk) (sess, w) s ->
  well_formed (messages (fst s)) /\
  forall l, messages (fst s) = Some l -> head l = Some greeting.
Proof.
  intros Hwf Hsteps.
  assert (Hinv : well_formed (messages (fst s))).
  { remember (sess, w) as s0 eqn:Hs0.
    assert (H0 : well_formed (messages (fst s0))) by by subst.
    clear Hs0 Hwf. induction Hsteps as [|x y z Hstep _ IH]; [done|].
    apply IH. destruct Hstep as [inp [sess1 w1] r s' Hrun | sess1 w1 files _]; [|done].
    destruct (main_total inp sess1 w1) as (o & sess' & w' & Hmain & Hkeep).
    rewrite Hmain in Hrun. injection Hrun as _ <-. by apply Hkeep. }
  split; [done|]. intros l Hl. rewrite Hl in Hinv. by destruct Hinv as [turns ->].
Qed.

(** X16.  Once the session is initialized it is never set up again: over any
    sequence of runs and changes of the disk, the session stays initialized,
    the chatbot object is the same, and no key test and no embedding of
    chunks is ever made. *)
Theorem initialized_session_stays (sess : SessionState) (w : World)
    (b : RealEstateChatbot) (s : SessionState * World) :
  chatbot sess = Some b -> initialized sess = true ->
  rtc (step svc txt any_disk) (sess, w) s ->
  chatbot (fst s) = Some b /\ initialized (fst s) = true /\
  filter setup_call (added w (snd s)) = [].
Proof.
  intros Hbot Hinit Hsteps.
  assert (Hinv : chatbot (fst s) = Some b /\ initialized (fst s) = true /\
                 exists evs, trace (snd s) = trace w ++ evs /\
                   Forall (fun ev => ~ setup_call ev) evs).
  { apply (rtc_ind_r (R := step svc txt any_disk) (fun s => chatbot (fst s) = Some b /\ initialized (fst s) = true /\
                 exists evs, trace (snd s) = trace w ++ evs /\
                   Forall (fun ev => ~ setup_call ev) evs) (sess, w)); [| |exact Hsteps].
    - split; [done|]. split; [done|]. exists []. by rewrite app_nil_r.
    - intros y z _ Hstep (Hb & Hi & evs & Htr & Hevs).
      destruct Hstep as [inp [sess1 w1] r s' Hrun | sess1 w1 files _]; simpl in *.
      + destruct (main_initialized inp sess1 w1 b Hb Hi)
          as (o & sess' & evs' & Hmain & Hb' & Hi' & Hevs' & _).
        rewrite Hmain in Hrun. injection Hrun as _ <-. simpl.
        split; [done|]. split; [done|]. exists (evs ++ evs').
        rewrite Htr, <- app_assoc. split; [done|]. by rewrite Forall_app.
      + split; [done|]. split; [done|]. by exists evs. }
  destruct Hinv as (Hb & Hi & evs & Htr & Hevs).
  split; [done|]. split; [done|].
  rewrite (added_extends _ _ _ Htr). by apply filter_none.
Qed.

End RunFacts.

(** ** Instances of the further properties *)



Lemma general_answer_trimmed_witness :
  @nil Document = [] /\
  ((exists e s1,
      chat_model_predict sample_services (general_prompt sample_prompts "hi")
        (sample_chatbot, empty_world) = (Raise e, s1) /\
      "general" = general_fallback) \/
   (exists text s1,
      chat_model_predict sample_services (general_prompt sample_prompts "hi")
        (sample_chatbot, empty_world) = (Ok text, s1) /\
      "general" = PyStr.strip text /\ trimmed "general" /\
      PyStr.strip "general" = "general")).
Proof.
  exact (general_answer_trimmed sample_services sample_prompts sample_chatbot
           empty_world "hi" "general" []
           (sample_chatbot,
            after empty_world (Predict (general_prompt sample_prompts "hi")))
           eq_refl).
Defined.

Lemma chain_output_missing_keys_witness :
  get_property_response services_partial "hi" (sample_chatbot, empty_world) =
    (Ok (property_apology +:+ "'result'", []),
     (sample_chatbot, after empty_world (ChainCall "hi"))).
Proof.
  exact (proj1 (chain_output_missing_keys services_partial sample_chatbot
                  empty_world "hi" (mkChainOutput None None)
                  (sample_chatbot, after empty_world (ChainCall "hi")) eq_refl)
           eq_refl).
Defined.

Lemma response_without_initialization_witness :
  get_response sample_services sample_prompts "hi" (new_chatbot, empty_world) =
    (Ok (property_apology +:+ "'NoneType' object is not callable", []),
     (new_chatbot, empty_world)).
Proof.
  exact (response_without_initialization sample_services sample_prompts
           new_chatbot empty_world "hi" eq_refl eq_refl).
Defined.

Lemma get_response_frame_witness :
  length (added empty_world
            (snd (snd (get_response sample_services sample_prompts "hi"
                         (sample_chatbot, empty_world))))) <= 2.
Proof.
  refine (proj2 (proj2 (proj2
            (get_response_frame sample_services sample_prompts sample_chatbot
               empty_world "hi" _ _ _ _)))).
  vm_compute. reflexivity.
Defined.

Lemma initialization_preconditions_witness :
  initialize_components services_bad_key sample_prompts "sk-bad"
    (new_chatbot, dataset_world) =
  (Ok false,
   (new_chatbot,
    after (after dataset_world (Completion "sk-bad"))
      (StError ("Invalid API Key: " +:+ "401 Unauthorized")))).
Proof.
  exact (proj1 (initialization_preconditions services_bad_key sample_prompts
                  "sk-bad" new_chatbot dataset_world)
           "401 Unauthorized" eq_refl).
Defined.

Lemma initialization_success_witness :
  last (trace (snd (snd (initialize_components sample_services sample_prompts "sk-test"
                           (new_chatbot, indexed_world))))) =
  Some (StSuccess "Chatbot initialized successfully!").
Proof.
  refine (proj1 (proj2 (initialization_success sample_services sample_prompts
                          "sk-test" new_chatbot indexed_world _ _ _))).
  vm_compute. reflexivity.
Defined.

Example fresh_index_is_built :
  fs (snd (snd (initialize_components sample_services sample_prompts "sk-test"
                  (new_chatbot, dataset_world)))) !! "chroma_db" =
  Some (ChromaDir [(sample_doc, [50%Z])]).
Proof. vm_compute. reflexivity. Qed.

Lemma build_then_reuse_witness :
  let built := initialize_components sample_services sample_prompts "sk-test"
                 (new_chatbot, dataset_world) in
  let again := initialize_components sample_services sample_prompts "sk-other"
                 (new_chatbot, snd (snd built)) in
  filter embedding_call (added (snd (snd built)) (snd (snd again))) = [].
Proof.
  intros built again.
  refine (proj1 (proj2 (build_then_reuse sample_services sample_prompts
                          "sk-test" "sk-other" new_chatbot new_chatbot
                          dataset_world (snd (snd built)) (fst (snd built))
                          (fst (snd again)) (snd (snd built)) (snd (snd again))
                          _ _ _ _))).
  - vm_compute. reflexivity.
  - vm_compute. reflexivity.
  - reflexivity.
  - vm_compute. reflexivity.
Defined.

Lemma no_key_no_chat_witness :
  exists sess',
    main sample_services sample_prompts (mkInputs "" (Some "hi") true)
      (sample_session, empty_world) =
      (Ok Finished,
       (sess', after empty_world (StWarning
          "Please enter your OpenAI API Key in the sidebar to start chatting."))) /\
    messages sess' = messages sample_session /\
    chatbot sess' = Some (default new_chatbot (chatbot sample_session)) /\
    (is_Some (chatbot sample_session) -> sess' = sample_session).
Proof.
  exact (no_key_no_chat sample_services sample_prompts (mkInputs "" (Some "hi") true)
           sample_session empty_world eq_refl).
Defined.

Lemma chat_line_beats_clear_witness :
  main sample_services sample_prompts (mkInputs "sk-test" (Some "hi") true)
    (sample_session, empty_world) =
  main sample_services sample_prompts (mkInputs "sk-test" (Some "hi") false)
    (sample_session, empty_world).
Proof.
  exact (chat_line_beats_clear sample_services sample_prompts "sk-test" "hi"
           (Some "hi") (sample_session, empty_world) eq_refl).
Defined.

Lemma idle_run_witness :
  main sample_services sample_prompts (mkInputs "sk-test" None false)
    (sample_session, empty_world) =
    (Ok Finished,
     (set_messages (default [greeting] (messages sample_session)) sample_session,
      displayed (default [greeting] (messages sample_session)) empty_world)) /\
  added empty_world (displayed (default [greeting] (messages sample_session)) empty_world) =
    shown <$> default [greeting] (messages sample_session).
Proof.
  exact (idle_run sample_services sample_prompts (mkInputs "sk-test" None false)
           sample_session empty_world sample_chatbot
           eq_refl eq_refl eq_refl eq_refl eq_refl).
Defined.

Lemma initialization_in_run_witness :
  main sample_services sample_prompts (mkInputs "sk-test" (Some "hi") false)
    (fresh_session, empty_world) =
  (Ok Finished,
   (mkSession (Some new_chatbot) false None,
    after (after (after empty_world (Completion "sk-test"))
             (StError "Property_data.csv file not found!"))
      (StError "Chatbot not initialized. Please check your API key and dataset."))).
Proof.
  exact (initialization_in_run sample_services sample_prompts
           (mkInputs "sk-test" (Some "hi") false) fresh_session empty_world
           false new_chatbot
           (after (after empty_world (Completion "sk-test"))
              (StError "Property_data.csv file not found!"))
           eq_refl (or_introl eq_refl) eq_refl).
Defined.

Example first_run_answers_the_line :
  messages (fst (snd (main sample_services sample_prompts
                        (mkInputs "sk-test" (Some "hi") false)
                        (fresh_session, indexed_world)))) =
  Some [greeting; mkMessage "user" "hi"; mkMessage "assistant" "general"].
Proof. vm_compute. reflexivity. Qed.

Lemma history_shape_invariant_witness :
  well_formed
    (messages (fst (snd (main sample_services sample_prompts
                           (mkInputs "sk-test" (Some "hi") false)
                           (fresh_session, indexed_world))))).
Proof.
  refine (proj1 (history_shape_invariant sample_services sample_prompts
                   fresh_session indexed_world _ _ _)).
  - exact I.
  - apply rtc_once.
    apply (step_run _ _ _ (mkInputs "sk-test" (Some "hi") false) _
             (fst (main sample_services sample_prompts
                     (mkInputs "sk-test" (Some "hi") false)
                     (fresh_session, indexed_world)))).
    vm_compute. reflexivity.
Defined.

Lemma initialized_session_stays_witness :
  initialized
    (fst (snd (main sample_services sample_prompts
                 (mkInputs "sk-test" (Some "hi") false)
                 (sample_session, empty_world)))) = true.
Proof.
  refine (proj1 (proj2 (initialized_session_stays sample_services sample_prompts
                          sample_session empty_world sample_chatbot _ _ _ _))).
  - reflexivity.
  - reflexivity.
  - apply rtc_once.
    apply (step_run _ _ _ (mkInputs "sk-test" (Some "hi") false) _
             (fst (main sample_services sample_prompts
                     (mkInputs "sk-test" (Some "hi") false)
                     (sample_session, empty_world)))).
    vm_compute. reflexivity.
Defined.
